(** * The HogQL query endpoint ([posthog/api/hogql_query.py])

    A shallow embedding of [HogQLQueryViewSet]: the memoised feature check
    [check_team_api_queries_concurrency], the [run] action with its chain of
    [except] handlers, [handle_column_ch_error] and [_tag_client_query_id].

    Python values are an inductive type, exceptions are data, and the
    effects the view performs itself (cache reads and writes, tag writes,
    calls of the subscription service, of the query engine and of
    [capture_exception]) are threaded through a state-and-exception monad
    over a [World]. *)

From stdpp Require Import gmap strings list pretty.

Local Open Scope string_scope.
Local Open Scope Z_scope.
Local Set Warnings "-register-all".

(** ** Python values *)

(** The JSON-like values a result mapping or an exception attribute can
    hold.  A [dict] keeps its items in insertion order; floats are left out. *)
Inductive PyVal : Type :=
  | PyNone
  | PyBool (b : bool)
  | PyInt (n : Z)
  | PyStr (s : string)
  | PyList (l : list PyVal)
  | PyDict (d : list (string * PyVal)).

Abbreviation PyMapping := (list (string * PyVal)).

(** [bool(v)]. *)
Definition truthy (v : PyVal) : bool :=
  match v with
  | PyNone => false
  | PyBool b => b
  | PyInt n => negb (n =? 0)
  | PyStr s => negb (String.eqb s "")
  | PyList l => match l with [] => false | _ => true end
  | PyDict d => match d with [] => false | _ => true end
  end.

(** [type(v).__name__]. *)
Definition type_name (v : PyVal) : string :=
  match v with
  | PyNone => "NoneType"
  | PyBool _ => "bool"
  | PyInt _ => "int"
  | PyStr _ => "str"
  | PyList _ => "list"
  | PyDict _ => "dict"
  end.

(** [d.get(k)] on a mapping; [None] stands for the key being absent. *)
Fixpoint dict_lookup (k : string) (d : PyMapping) : option PyVal :=
  match d with
  | [] => None
  | (k', v) :: d' => if String.eqb k k' then Some v else dict_lookup k d'
  end.

(** [d.get(k)]: the value, or Python's [None] when the key is absent. *)
Definition dict_get (k : string) (d : PyMapping) : PyVal :=
  default PyNone (dict_lookup k d).

(** [v is False]: identity with the [False] singleton. *)
Definition is_False (v : PyVal) : bool :=
  match v with
  | PyBool false => true
  | _ => false
  end.

(** ** Exceptions *)

(** Modelled from the spec: the exception classes named by the handlers of
    [run] are declared outside this file ([posthog.hogql.errors],
    [posthog.errors], [common.hogvm], [posthog.clickhouse.client.limit]).
    They are the spec's engine semantic error, engine-translation error,
    script-runtime error, name resolution error and concurrency admission
    exhaustion; they are pairwise unrelated, and an instance of a subclass
    carries the tag of the class the handler names.  Every other exception
    class is [OtherException] with its name. *)
Inductive ExcClass : Type :=
  | ExposedHogQLError
  | ExposedCHQueryError
  | HogVMException
  | ResolutionError
  | ConcurrencyLimitExceeded
  | OtherException (name : string).

(** An exception object that is not one of rest_framework's: its class,
    [str(e)], and the attributes [getattr] can see. *)
Record ExcObject : Type := mkExc {
  exc_class : ExcClass;
  exc_str : string;
  exc_attrs : PyMapping
}.

(** The exceptions [run] can end with.  [ValidationError(detail, code)] and
    [Throttled(detail=...)] are rest_framework's; [code = PyNone] is the
    call with no code. *)
Inductive PyExc : Type :=
  | ValidationError (detail : string) (code : PyVal)
  | Throttled (detail : string)
  | Exc (e : ExcObject).

(** [getattr(e, name, default)].  rest_framework's [APIException]s carry
    [detail] only: neither [message] nor [code_name]. *)
Definition getattr (e : PyExc) (name : string) (dflt : PyVal) : PyVal :=
  match e with
  | Exc o => default dflt (dict_lookup name (exc_attrs o))
  | ValidationError _ _ | Throttled _ => dflt
  end.

Definition AttributeError (v : PyVal) (attr : string) : PyExc :=
  Exc (mkExc (OtherException "AttributeError")
         ("'" +:+ type_name v +:+ "' object has no attribute '" +:+ attr +:+ "'")
         []).

Definition TypeError (msg : string) : PyExc :=
  Exc (mkExc (OtherException "TypeError") msg []).

(** ** The world the view acts on *)

(** One call of [process_query_model], with the ambient query tags it runs
    under. *)
Record Dispatch (Team Query ExecutionMode User : Type) : Type := mkDispatch {
  d_team : option Team;
  d_query : Query;
  d_execution_mode : ExecutionMode;
  d_query_id : option string;
  d_user : User;
  d_is_query_service : bool;
  d_tags : gmap string string
}.
Arguments mkDispatch {Team Query ExecutionMode User}.
Arguments d_team {Team Query ExecutionMode User}.
Arguments d_query {Team Query ExecutionMode User}.
Arguments d_execution_mode {Team Query ExecutionMode User}.
Arguments d_query_id {Team Query ExecutionMode User}.
Arguments d_user {Team Query ExecutionMode User}.
Arguments d_is_query_service {Team Query ExecutionMode User}.
Arguments d_tags {Team Query ExecutionMode User}.

(** [cache] is django's process-wide cache (no entry is evicted during its
    lifetime), [query_tags] the ambient tag context of the request;
    [feature_calls], [dispatched] and [captured] log the calls of the
    subscription service (by team id), of the query engine and of
    [capture_exception], oldest first. *)
Record World (D : Type) : Type := mkWorld {
  cache : gmap string bool;
  query_tags : gmap string string;
  feature_calls : list Z;
  dispatched : list D;
  captured : list PyExc
}.
Arguments mkWorld {D}.
Arguments cache {D}.
Arguments query_tags {D}.
Arguments feature_calls {D}.
Arguments dispatched {D}.
Arguments captured {D}.

(** ** A state-and-exception monad *)

Inductive Outcome (A : Type) : Type :=
  | Returned (a : A)
  | Raised (e : PyExc).
Arguments Returned {A}.
Arguments Raised {A}.

Module PyM.
Definition M (W A : Type) : Type := W -> Outcome A * W.

Definition ret {W A} (a : A) : M W A := fun w => (Returned a, w).

Definition raise {W A} (e : PyExc) : M W A := fun w => (Raised e, w).

Definition bind {W A B} (m : M W A) (k : A -> M W B) : M W B :=
  fun w =>
    match m w with
    | (Returned a, w') => k a w'
    | (Raised e, w') => (Raised e, w')
    end.

(** [try: body except ... as e: handler e]. *)
Definition try_except {W A} (body : M W A) (handler : PyExc -> M W A) : M W A :=
  fun w =>
    match body w with
    | (Returned a, w') => (Returned a, w')
    | (Raised e, w') => handler e w'
    end.

(** A collaborator's outcome, lifted. *)
Definition lift {W A} (o : Outcome A) : M W A := fun w => (o, w).

Definition get {W} : M W W := fun w => (Returned w, w).

Definition modify {W} (f : W -> W) : M W unit := fun w => (Returned tt, f w).
End PyM.

Declare Scope py_scope.
Delimit Scope py_scope with py.
Notation "x <- m ;; k" := (PyM.bind m (fun x => k))
  (at level 100, m at next level, right associativity) : py_scope.
Notation "m ;;; k" := (PyM.bind m (fun _ => k))
  (at level 100, right associativity) : py_scope.

(** ** Regular expressions: the fragment [re.search] is used with *)

(** A pattern is a sequence of literals and [.*]; [.] matches every
    character but the newline, and [*] is greedy. *)
Inductive ReAtom : Type :=
  | Lit (s : string)
  | DotStar.

Definition newline : Ascii.ascii := Ascii.ascii_of_nat 10.

(** [strip_prefix p s]: what is left of [s] after its prefix [p]. *)
Fixpoint strip_prefix (p s : string) : option string :=
  match p, s with
  | EmptyString, _ => Some s
  | String a p', String b s' => if Ascii.eqb a b then strip_prefix p' s' else None
  | String _ _, EmptyString => None
  end.

(** The text matched by the pattern at the start of [s], by backtracking:
    [.*] first takes as many characters as it can. *)
Fixpoint re_match (pat : list ReAtom) (s : string) : option string :=
  match pat with
  | [] => Some ""
  | Lit l :: pat' =>
      match strip_prefix l s with
      | Some s' => String.app l <$> re_match pat' s'
      | None => None
      end
  | DotStar :: pat' =>
      (fix star (s : string) : option string :=
         match s with
         | EmptyString => re_match pat' ""
         | String c s' =>
             if Ascii.eqb c newline then re_match pat' s
             else match star s' with
                  | Some m => Some (String c m)
                  | None => re_match pat' s
                  end
         end) s
  end.

(** [re.search(pat, s)]: the leftmost match, as [match.group(0)]. *)
Fixpoint re_search (pat : list ReAtom) (s : string) : option string :=
  match re_match pat s with
  | Some m => Some m
  | None =>
      match s with
      | EmptyString => None
      | String _ s' => re_search pat s'
      end
  end.

(** [r"There's no column.*in table"]. *)
Definition column_pattern : list ReAtom :=
  [Lit "There's no column"; DotStar; Lit "in table"].

Definition beta_note : string :=
  ". Note: While in beta, not all column types may be fully supported".

(** ** Requests, results and responses *)

(** [data.query] is one of the query classes of [posthog.schema]; only
    [HogQLQuery] matters here, every other class is [OtherQuery] with its
    kind. *)
Inductive QueryNode : Type :=
  | HogQLQuery (query : string)
  | OtherQuery (kind : string).

Definition isinstance_HogQLQuery (q : QueryNode) : bool :=
  match q with
  | HogQLQuery _ => true
  | OtherQuery _ => false
  end.

Record QueryRequest : Type := mkQueryRequest {
  query : QueryNode;
  client_query_id : option string;
  refresh : option string
}.

Record Response : Type := mkResponse {
  body : PyMapping;
  status : Z
}.

Definition HTTP_200_OK : Z := 200.
Definition HTTP_202_ACCEPTED : Z := 202.

(** ** The view *)

Section HogQLQueryViewSet.
(** Types owned by collaborators. *)
Context {Organization User BaseModel ExecutionMode RequestData : Type}.
Context `{!EqDecision ExecutionMode}.

(** [AvailableFeature.API_QUERIES_CONCURRENCY] and [ASYNC_MODES], constants
    of [posthog.constants] and [posthog.hogql_queries.query_runner]. *)
Variable API_QUERIES_CONCURRENCY : string.
Variable ASYNC_MODES : list ExecutionMode.

(** The subscription service: [organization.is_feature_available(feature)]. *)
Variable is_feature_available : Organization -> string -> bool.

Record Team : Type := mkTeam {
  organization : Organization
}.

(** [self]: the team id of the route, and the team when it resolves. *)
Record ViewSet : Type := mkViewSet {
  team_id : Z;
  team : option Team
}.

Record Request : Type := mkRequest {
  data : RequestData;
  user : User
}.

(** What [process_query_model] returns: a plain mapping or a pydantic
    model. *)
Inductive QueryResult : Type :=
  | ResultDict (d : PyMapping)
  | ResultModel (m : BaseModel).

Abbreviation DispatchCall := (Dispatch Team QueryNode ExecutionMode User).
Abbreviation W := (World DispatchCall).
Abbreviation M := (PyM.M W).

(** [self.get_model(request.data, QueryRequest)], the request parser. *)
Variable get_model : RequestData -> Outcome QueryRequest.

(** [_process_query_request(data, team, client_query_id, user)], the
    resolver of [posthog.api.query]. *)
Variable _process_query_request :
  QueryRequest -> option Team -> option string -> User ->
  Outcome (QueryNode * option string * ExecutionMode).

(** [process_query_model(...)], the query engine; it sees its arguments
    and the ambient tags. *)
Variable process_query_model : DispatchCall -> Outcome QueryResult.

(** [result.model_dump(by_alias=True)]. *)
Variable model_dump : BaseModel -> PyMapping.

(** *** Primitive effects *)

Definition cache_get (key : string) : M (option bool) :=
  fun w => (Returned (cache w !! key), w).

Definition cache_set (key : string) (val : bool) : M unit :=
  PyM.modify (fun w =>
    mkWorld (<[key := val]> (cache w)) (query_tags w) (feature_calls w)
            (dispatched w) (captured w)).

(** The call of the subscription service made for the team of route id
    [tid]. *)
Definition call_is_feature_available (tid : Z) (t : Team) (feature : string) : M bool :=
  fun w =>
    (Returned (is_feature_available (organization t) feature),
     mkWorld (cache w) (query_tags w) (feature_calls w ++ [tid])
             (dispatched w) (captured w)).

(** Modelled from the spec: [tag_queries(client_query_id=...)] of
    [posthog.clickhouse.query_tagging], which is not in this file, attaches
    the id to the ambient per-request context under that key. *)
Definition tag_queries_client_query_id (query_id : string) : M unit :=
  PyM.modify (fun w =>
    mkWorld (cache w) (<["client_query_id" := query_id]> (query_tags w))
            (feature_calls w) (dispatched w) (captured w)).

(** Modelled from the spec: [get_query_tag_value(key)] of
    [posthog.clickhouse.query_tagging] reads the ambient context. *)
Definition get_query_tag_value (key : string) : M (option string) :=
  fun w => (Returned (query_tags w !! key), w).

Definition capture_exception (e : PyExc) : M unit :=
  PyM.modify (fun w =>
    mkWorld (cache w) (query_tags w) (feature_calls w) (dispatched w)
            (captured w ++ [e])).

(** The call of the engine: logged, then answered by the collaborator. *)
Definition call_process_query_model (c : DispatchCall) : M QueryResult :=
  fun w =>
    (process_query_model c,
     mkWorld (cache w) (query_tags w) (feature_calls w)
             (dispatched w ++ [c]) (captured w)).

(** *** [check_team_api_queries_concurrency] *)

Definition cache_key_of (tid : Z) : string :=
  "team/" +:+ pretty tid +:+ "/feature/" +:+ API_QUERIES_CONCURRENCY.

Definition check_team_api_queries_concurrency (self : ViewSet) : M bool :=
  (let cache_key := cache_key_of (team_id self) in
   cached <- cache_get cache_key ;;
   match cached with
   | Some cached => PyM.ret cached
   | None =>
       match team self with
       | Some t =>
           new_val <- call_is_feature_available (team_id self) t API_QUERIES_CONCURRENCY ;;
           (cache_set cache_key new_val ;;;
            PyM.ret new_val)
       | None => PyM.ret false
       end
   end)%py.

(** A run of feature checks, one per incoming request, on the shared
    world; and the number of subscription-service calls logged for a team. *)
Fixpoint check_each (views : list ViewSet) (w : W) : W :=
  match views with
  | [] => w
  | self :: views' =>
      check_each views' (snd (check_team_api_queries_concurrency self w))
  end.

Definition calls_for (tid : Z) (w : W) : nat :=
  length (filter (λ x, x = tid) (feature_calls w)).

(** The check in the steps that other requests can come between:
    [cache.get] with the two tests that follow it, the call of the
    subscription service, and [cache.set] with the return.  Nothing in the
    function holds the cache between them. *)
Inductive CheckPhase : Type :=
  | Started
  | Missed (t : Team)
  | Computed (new_val : bool)
  | Finished (result : bool).

Definition check_step (self : ViewSet) (phase : CheckPhase) (w : W)
  : CheckPhase * W :=
  let cache_key := cache_key_of (team_id self) in
  match phase with
  | Started =>
      match cache w !! cache_key with
      | Some cached => (Finished cached, w)
      | None =>
          match team self with
          | Some t => (Missed t, w)
          | None => (Finished false, w)
          end
      end
  | Missed t =>
      (Computed (is_feature_available (organization t) API_QUERIES_CONCURRENCY),
       snd (call_is_feature_available (team_id self) t API_QUERIES_CONCURRENCY w))
  | Computed new_val => (Finished new_val, snd (cache_set cache_key new_val w))
  | Finished result => (Finished result, w)
  end.

(** Requests served at the same time: each with the phase it is in; a
    schedule names, step by step, the request that moves. *)
Definition step_request (i : nat) (pool : list (ViewSet * CheckPhase)) (w : W)
  : list (ViewSet * CheckPhase) * W :=
  match pool !! i with
  | Some (self, phase) =>
      let '(phase', w') := check_step self phase w in
      (<[i := (self, phase')]> pool, w')
  | None => (pool, w)
  end.

Fixpoint run_schedule (schedule : list nat) (pool : list (ViewSet * CheckPhase))
    (w : W) : list (ViewSet * CheckPhase) * W :=
  match schedule with
  | [] => (pool, w)
  | i :: schedule' =>
      let '(pool', w') := step_request i pool w in
      run_schedule schedule' pool' w'
  end.

(** The checks of a team id that have not yet passed the call of the
    subscription service. *)
Definition may_call (tid : Z) (r : ViewSet * CheckPhase) : nat :=
  if bool_decide (team_id (fst r) = tid) then
    match snd r with
    | Started | Missed _ => 1
    | Computed _ | Finished _ => 0
    end
  else 0.

Definition pending (tid : Z) (pool : list (ViewSet * CheckPhase)) : nat :=
  sum_list (map (may_call tid) pool).

(** *** [handle_column_ch_error] *)

Definition handle_column_ch_error (error : PyExc) : M unit :=
  let message := getattr error "message" PyNone in
  if truthy message then
    match message with
    | PyStr s =>
        match re_search column_pattern s with
        | Some group0 => PyM.raise (ValidationError (group0 +:+ beta_note) PyNone)
        | None => PyM.ret tt
        end
    | other =>
        PyM.raise (TypeError ("expected string or bytes-like object, got '"
                              +:+ type_name other +:+ "'"))
    end
  else PyM.ret tt.

(** *** [_tag_client_query_id] *)

Definition _tag_client_query_id (query_id : option string) : M unit :=
  match query_id with
  | None => PyM.ret tt
  | Some query_id => tag_queries_client_query_id query_id
  end.

(** *** [run] *)

(** The status expression: [result.get("query_status") and
    result["query_status"].get("complete") is False]. *)
Definition response_status (result : PyMapping) : M Z :=
  let query_status := dict_get "query_status" result in
  if truthy query_status then
    match query_status with
    | PyDict qs =>
        PyM.ret (if is_False (dict_get "complete" qs)
                 then HTTP_202_ACCEPTED else HTTP_200_OK)
    | other => PyM.raise (AttributeError other "get")
    end
  else PyM.ret HTTP_200_OK.

(** [isinstance(result, BaseModel)] and the dump that follows. *)
Definition normalize (result : QueryResult) : PyMapping :=
  match result with
  | ResultModel m => model_dump m
  | ResultDict d => d
  end.

(** The body of the [try]. *)
Definition run_try (self : ViewSet) (request : Request) (data : QueryRequest)
  : M Response :=
  (resolved <- PyM.lift (_process_query_request data (team self)
                           (client_query_id data) (user request)) ;;
   let '(query, client_query_id, execution_mode) := resolved in
   (_tag_client_query_id client_query_id ;;;
    if bool_decide (execution_mode ∈ ASYNC_MODES) then
      PyM.raise (ValidationError "only sync modes are supported (refresh param)" PyNone)
    else
      access_method <- get_query_tag_value "access_method" ;;
      tags <- PyM.get ;;
      result <- call_process_query_model
                  (mkDispatch (team self) query execution_mode client_query_id
                     (user request)
                     (bool_decide (access_method = Some "personal_api_key"))
                     (query_tags tags)) ;;
      let result := normalize result in
      response_status <- response_status result ;;
      PyM.ret (mkResponse result response_status)))%py.

(** The call of [process_query_model] that [run] makes in world [w] (the
    world once the id is tagged). *)
Definition dispatch_call (self : ViewSet) (request : Request)
    (query : QueryNode) (client_query_id : option string)
    (execution_mode : ExecutionMode) (w : W) : DispatchCall :=
  mkDispatch (team self) query execution_mode client_query_id (user request)
    (bool_decide (query_tags w !! "access_method" = Some "personal_api_key"))
    (query_tags w).

(** [except Exception as e]: the last clause. *)
Definition except_Exception (self : ViewSet) (e : PyExc) : M Response :=
  (handle_column_ch_error e ;;;
   capture_exception e ;;;
   PyM.raise e)%py.

(** The [except] clauses, in their order. *)
Definition run_except (self : ViewSet) (e : PyExc) : M Response :=
  match e with
  | Exc o =>
      match exc_class o with
      | ExposedHogQLError | ExposedCHQueryError | HogVMException =>
          PyM.raise (ValidationError (exc_str o) (getattr e "code_name" PyNone))
      | ResolutionError =>
          PyM.raise (ValidationError (exc_str o) PyNone)
      | ConcurrencyLimitExceeded =>
          PyM.raise (Throttled (exc_str o))
      | OtherException _ => except_Exception self e
      end
  | ValidationError _ _ | Throttled _ => except_Exception self e
  end.

Definition run (self : ViewSet) (request : Request) : M Response :=
  (data <- PyM.lift (get_model (data request)) ;;
   if negb (isinstance_HogQLQuery (query data)) then
     PyM.raise (ValidationError "This endpoint only supports HogQLQuery" PyNone)
   else
     PyM.try_except (run_try self request data) (run_except self))%py.

End HogQLQueryViewSet.

(** The exceptions that no earlier clause takes and that reach
    [except Exception]. *)
Definition reaches_catch_all (e : PyExc) : bool :=
  match e with
  | Exc o =>
      match exc_class o with
      | OtherException _ => true
      | _ => false
      end
  | ValidationError _ _ | Throttled _ => true
  end.

(** A text with no newline in it: what [.*] can match. *)
Fixpoint one_line (s : string) : bool :=
  match s with
  | EmptyString => true
  | String c s' => negb (Ascii.eqb c newline) && one_line s'
  end.

(** A text with no [/] in it, as the decimal form of a team id is. *)
Fixpoint no_slash (s : string) : bool :=
  match s with
  | EmptyString => true
  | String c s' => negb (Ascii.eqb c (Ascii.ascii_of_nat 47)) && no_slash s'
  end.

(** What it is for a text to contain a match of [column_pattern]: the two
    literals on one line, in this order. *)
Definition contains_column_error (s : string) : Prop :=
  exists pre mid post : string,
    s = pre +:+ "There's no column" +:+ mid +:+ "in table" +:+ post /\
    one_line mid = true.

(** The pattern as the specification words it, [no such column ... in
    table], to be compared with [column_pattern]. *)
Definition spec_column_pattern : list ReAtom :=
  [Lit "no such column"; DotStar; Lit "in table"].

(** The message of the variant check as the specification words it, with
    the supported variant filled in. *)
Definition spec_variant_message : string :=
  "this endpoint only supports HogQLQuery".

(** ** A small instance of the collaborators *)

Module Fixture.

Inductive Mode : Type :=
  | ForceBlocking
  | ForceAsync.

#[global] Instance Mode_eq_dec : EqDecision Mode.
Proof. solve_decision. Defined.

Definition async_modes : list Mode := [ForceAsync].

Definition feature : string := "api_queries_concurrency".

(** An organization is the list of the features it subscribes to. *)
Definition subscribed (org : list string) (f : string) : bool :=
  bool_decide (f ∈ org).

Abbreviation FTeam := (@Team (list string)).
Abbreviation FCall := (Dispatch FTeam QueryNode Mode string).
Abbreviation FWorld := (World FCall).

(** The request data is the parsed request; a model is its own dump. *)
Definition parse (d : QueryRequest) : Outcome QueryRequest := Returned d.

Definition dump (m : PyMapping) : PyMapping := m.

(** The resolver keeps the query and the id of the request, and takes the
    mode from its [refresh]. *)
Definition resolve (d : QueryRequest) (t : option FTeam)
    (cid : option string) (u : string) : Outcome (QueryNode * option string * Mode) :=
  Returned (query d, cid,
            if bool_decide (refresh d = Some "force_async")
            then ForceAsync else ForceBlocking).

Definition engine_returns (r : @QueryResult PyMapping) (c : FCall)
  : Outcome (@QueryResult PyMapping) := Returned r.

Definition engine_raises (e : PyExc) (c : FCall)
  : Outcome (@QueryResult PyMapping) := Raised e.

Definition view : @ViewSet (list string) :=
  mkViewSet 7 (Some (mkTeam [feature])).

Definition view_unresolved : @ViewSet (list string) := mkViewSet 8 None.

Definition empty_world : FWorld := mkWorld ∅ ∅ [] [] [].

Definition post (d : QueryRequest) : @Request string QueryRequest :=
  mkRequest d "user".

Definition hogql (cid : option string) (refresh : option string) : QueryRequest :=
  mkQueryRequest (HogQLQuery "select 1") cid refresh.

Definition events_query : QueryRequest :=
  mkQueryRequest (OtherQuery "EventsQuery") None None.

(** [run] and the feature check over this instance. *)
Definition run_with
    (engine : FCall -> Outcome (@QueryResult PyMapping))
    (d : QueryRequest) : FWorld -> Outcome Response * FWorld :=
  run async_modes parse resolve engine dump view (post d).

Definition check_with (self : @ViewSet (list string))
  : FWorld -> Outcome bool * FWorld :=
  @check_team_api_queries_concurrency (list string) string Mode
    feature subscribed self.

(** The call the engine receives for [hogql cid None] in the empty world. *)
Definition call_of (cid : option string) : FCall :=
  mkDispatch (team view) (HogQLQuery "select 1") ForceBlocking cid "user" false
    (match cid with
     | Some c => {["client_query_id" := c]}
     | None => ∅
     end).

Definition after_call (cid : option string) : FWorld :=
  mkWorld ∅ (d_tags (call_of cid)) [] [call_of cid] [].

(** Engine errors. *)
Definition column_error (message : string) : PyExc :=
  Exc (mkExc (OtherException "ServerException") message
         [("message", PyStr message)]).

Definition bare_error (text : string) : PyExc :=
  Exc (mkExc (OtherException "Exception") text []).

Definition limit_exceeded : ExcObject :=
  mkExc ConcurrencyLimitExceeded "team X exceeded limit" [].

Definition query_error : ExcObject :=
  mkExc ExposedCHQueryError "Illegal type of argument"
    [("code_name", PyStr "illegal_type_of_argument")].

Definition resolution_error : ExcObject :=
  mkExc ResolutionError "Unable to resolve field: x" [].

End Fixture.

(** ** More cases for the instance *)

Module Scenario.

(** A resolver that fails. *)
Definition resolve_raises (e : PyExc) (d : QueryRequest) (t : option Fixture.FTeam)
    (cid : option string) (u : string)
  : Outcome (QueryNode * option string * Fixture.Mode) := Raised e.

(** A request that came in through a personal API key. *)
Definition api_key_world : Fixture.FWorld :=
  mkWorld ∅ {["access_method" := "personal_api_key"]} [] [] [].


(** An exception whose [message] is a number. *)
Definition numbered_error : PyExc :=
  Exc (mkExc (OtherException "Exception") "boom" [("message", PyInt 5)]).

(** ClickHouse's message about a missing column, with a stack trace on the
    lines that follow. *)
Definition traced_message : string :=
  "Code: 16. DB::Exception: There's no column foo in table events. (X)"
  +:+ String newline "Stack trace: in table scan".

End Scenario.

(** * The Accoil destination ([posthog/cdp/templates/accoil/template_accoil.py])

    The template's [code] is a Hog program.  It is embedded statement by
    statement; the functions of Hog's standard library it calls
    ([toString], [toFloat], [empty], [lower], [substring], [base64Encode],
    the rendering of a value inside an f-string) and [fetch] are
    parameters. *)

Module Accoil.

(** What lowercasing does to ASCII text: the capital letters are moved to
    the small ones. *)
Definition lower_char (c : Ascii.ascii) : Ascii.ascii :=
  let n := Ascii.nat_of_ascii c in
  if ((65 <=? n)%nat && (n <=? 90)%nat)%bool then Ascii.ascii_of_nat (n + 32) else c.

Fixpoint lower_text (s : string) : string :=
  match s with
  | EmptyString => EmptyString
  | String c s' => String (lower_char c) (lower_text s')
  end.

Section Script.
(** Hog's floating-point numbers. *)
Context {Float : Type}.

(** Hog values. *)
Inductive HogVal : Type :=
  | HNull
  | HBool (b : bool)
  | HInt (n : Z)
  | HFloat (x : Float)
  | HStr (s : string)
  | HArray (l : list HogVal)
  | HDict (d : list (string * HogVal)).

Abbreviation HogDict := (list (string * HogVal)).

(** [d[k]] read: [null] when the key is missing. *)
Fixpoint hog_lookup (k : string) (d : HogDict) : option HogVal :=
  match d with
  | [] => None
  | (k', v) :: d' => if String.eqb k k' then Some v else hog_lookup k d'
  end.

Definition hog_get (k : string) (d : HogDict) : HogVal :=
  default HNull (hog_lookup k d).

(** [d[k] := v] and [d.k := v]: the entry is replaced where it is, or added
    at the end. *)
Fixpoint hog_set (k : string) (v : HogVal) (d : HogDict) : HogDict :=
  match d with
  | [] => [(k, v)]
  | (k', v') :: d' =>
      if String.eqb k k' then (k, v) :: d' else (k', v') :: hog_set k v d'
  end.

(** [v == 'text']. *)
Definition hog_eq_str (v : HogVal) (text : string) : bool :=
  match v with
  | HStr s => String.eqb s text
  | _ => false
  end.

(** The inputs, as [inputs_schema] declares them: the two of type
    [dictionary] are dictionaries, the others any value. *)
Record Inputs : Type := mkInputs {
  apiKey : HogVal;
  timestamp : HogVal;
  userId : HogVal;
  anonymousId : HogVal;
  event : HogVal;
  name : HogVal;
  email : HogVal;
  user_name : HogVal;
  role : HogVal;
  accountStatus : HogVal;
  createdAt : HogVal;
  user_traits_mapping : HogDict;
  groupId : HogVal;
  group_name : HogVal;
  group_createdAt : HogVal;
  group_status : HogVal;
  group_plan : HogVal;
  group_mrr : HogVal;
  group_traits_mapping : HogDict
}.

(** What [fetch] answers. *)
Record FetchResponse : Type := mkFetchResponse {
  res_status : Z;
  res_body : HogVal
}.

(** How the program ends. *)
Inductive Finish : Type :=
  | Done
  | Thrown (message : string).

(** Hog's standard library, and [fetch]. *)
Variable toString : HogVal -> string.
Variable toFloat : HogVal -> HogVal.
Variable empty : HogVal -> bool.
Variable lower : HogVal -> HogVal.
Variable substring : HogVal -> Z -> Z -> HogVal.
Variable base64Encode : string -> string.
Variable render : HogVal -> string.
Variable fetch : string -> HogDict -> FetchResponse.

(** The call type, from [event.event]. *)
Definition call_type (event_name : string) : string :=
  if String.eqb event_name "$pageview" then "page"
  else if String.eqb event_name "$screen" then "screen"
  else if bool_decide (event_name ∈ ["$identify"; "$set"]) then "identify"
  else if String.eqb event_name "$groupidentify" then "group"
  else "track".

(** [if (not empty(source)) traits.k := v]. *)
Definition set_unless_empty (source : HogVal) (k : string) (v : HogVal)
    (traits : HogDict) : HogDict :=
  if negb (empty source) then hog_set k v traits else traits.

(** One turn of the loop over a traits mapping. *)
Definition merge_entry (traits : HogDict) (entry : string * HogVal) : HogDict :=
  let '(key, value) := entry in
  if empty (hog_get key traits) && negb (empty value)
  then hog_set key value traits
  else traits.

(** [if (not empty(mapping)) { for (let key, value in mapping) ... }]. *)
Definition merge_mapping (mapping : HogDict) (traits : HogDict) : HogDict :=
  if negb (empty (HDict mapping))
  then fold_left merge_entry mapping traits
  else traits.

(** The traits of an [identify] call. *)
Definition user_traits (inputs : Inputs) : HogDict :=
  let traits := [] in
  let traits := set_unless_empty (email inputs) "email"
                  (HStr (toString (email inputs))) traits in
  let traits := set_unless_empty (user_name inputs) "name"
                  (HStr (toString (user_name inputs))) traits in
  let traits := set_unless_empty (role inputs) "role"
                  (HStr (toString (role inputs))) traits in
  let traits := set_unless_empty (accountStatus inputs) "accountStatus"
                  (HStr (toString (accountStatus inputs))) traits in
  let traits := set_unless_empty (createdAt inputs) "createdAt"
                  (HStr (toString (createdAt inputs))) traits in
  merge_mapping (user_traits_mapping inputs) traits.

(** The traits of a [group] call. *)
Definition group_traits (inputs : Inputs) : HogDict :=
  let traits := [] in
  let traits := set_unless_empty (group_name inputs) "name"
                  (HStr (toString (group_name inputs))) traits in
  let traits := set_unless_empty (group_createdAt inputs) "createdAt"
                  (HStr (toString (group_createdAt inputs))) traits in
  let traits := set_unless_empty (group_status inputs) "status"
                  (HStr (toString (group_status inputs))) traits in
  let traits := set_unless_empty (group_plan inputs) "plan"
                  (HStr (toString (group_plan inputs))) traits in
  let traits := set_unless_empty (group_mrr inputs) "mrr"
                  (toFloat (group_mrr inputs)) traits in
  merge_mapping (group_traits_mapping inputs) traits.

(** The body of the request. *)
Definition payload (event_name : string) (inputs : Inputs) : HogDict :=
  let type := call_type event_name in
  let body := [("type", HStr type);
               ("timestamp", HStr (toString (timestamp inputs)));
               ("userId", HStr (toString (userId inputs)))] in
  let body :=
    if negb (empty (anonymousId inputs))
    then hog_set "anonymousId" (HStr (toString (anonymousId inputs))) body
    else body in
  if String.eqb type "track" then
    hog_set "event" (HStr (toString (event inputs))) body
  else if String.eqb type "page" || String.eqb type "screen" then
    hog_set "name" (HStr (toString (name inputs))) body
  else if String.eqb type "identify" then
    hog_set "traits" (HDict (user_traits inputs)) body
  else if String.eqb type "group" then
    let body := hog_set "groupId" (HStr (toString (groupId inputs))) body in
    hog_set "traits" (HDict (group_traits inputs)) body
  else body.

(** The URL, from the prefix of the API key. *)
Definition endpoint (inputs : Inputs) : string :=
  if hog_eq_str (substring (lower (apiKey inputs)) 1 4) "stg_"
  then "https://instaging.accoil.com/segment"
  else "https://in.accoil.com/segment".

(** The options of the [fetch]. *)
Definition fetch_options (inputs : Inputs) (body : HogDict) : HogDict :=
  let credentials := base64Encode (render (apiKey inputs) +:+ ":") in
  [("method", HStr "POST");
   ("headers", HDict [("Authorization", HStr ("Basic " +:+ credentials));
                      ("Content-Type", HStr "application/json")]);
   ("body", HDict body)].

(** The whole program: the one [fetch] it makes, and how it ends. *)
Definition destination (event_name : string) (inputs : Inputs)
  : (string * HogDict) * Finish :=
  let body := payload event_name inputs in
  let url := endpoint inputs in
  let options := fetch_options inputs body in
  let res := fetch url options in
  ((url, options),
   if 400 <=? res_status res
   then Thrown ("Error from Accoil (status " +:+ render (HInt (res_status res))
                +:+ "): " +:+ render (res_body res))
   else Done).

End Script.

End Accoil.

(** ** An instance of Hog's standard library *)

Module AccoilFixture.

(** Floats are named by their literal here. *)
Abbreviation Val := (@Accoil.HogVal string).

Definition toString (v : Val) : string :=
  match v with
  | Accoil.HStr s => s
  | Accoil.HInt n => pretty n
  | Accoil.HFloat x => x
  | Accoil.HBool true => "true"
  | Accoil.HBool false => "false"
  | Accoil.HNull => "null"
  | _ => ""
  end.

Definition toFloat (v : Val) : Val :=
  match v with
  | Accoil.HStr s => Accoil.HFloat s
  | other => other
  end.

Definition empty (v : Val) : bool :=
  match v with
  | Accoil.HNull => true
  | Accoil.HStr "" => true
  | Accoil.HArray [] => true
  | Accoil.HDict [] => true
  | _ => false
  end.

Definition lower (v : Val) : Val :=
  match v with
  | Accoil.HStr s => Accoil.HStr (Accoil.lower_text s)
  | other => other
  end.

(** [substring(s, start, length)], counting from 1. *)
Definition substring (v : Val) (start len : Z) : Val :=
  match v with
  | Accoil.HStr s =>
      Accoil.HStr (String.substring (Z.to_nat (start - 1)) (Z.to_nat len) s)
  | other => other
  end.

(** How an f-string shows a value. *)
Definition render (v : Val) : string :=
  match v with
  | Accoil.HNull => ""
  | other => toString other
  end.

(** Base64, on the bytes of the text. *)
Definition base64_alphabet : string :=
  "ABCDEFGHIJKLMNOPQRSTUVWXYZabcdefghijklmnopqrstuvwxyz0123456789+/".

Definition base64_digit (n : N) : Ascii.ascii :=
  default Ascii.zero (String.get (N.to_nat n) base64_alphabet).

Fixpoint base64_bytes (l : list N) : string :=
  match l with
  | [] => ""
  | [a] =>
      String (base64_digit (N.shiftr a 2))
        (String (base64_digit (N.shiftl (N.land a 3) 4)) "==")
  | [a; b] =>
      String (base64_digit (N.shiftr a 2))
        (String (base64_digit (N.lor (N.shiftl (N.land a 3) 4) (N.shiftr b 4)))
           (String (base64_digit (N.shiftl (N.land b 15) 2)) "="))
  | a :: b :: c :: rest =>
      String (base64_digit (N.shiftr a 2))
        (String (base64_digit (N.lor (N.shiftl (N.land a 3) 4) (N.shiftr b 4)))
           (String (base64_digit (N.lor (N.shiftl (N.land b 15) 2) (N.shiftr c 6)))
              (String (base64_digit (N.land c 63)) (base64_bytes rest))))
  end.

Definition base64Encode (s : string) : string :=
  base64_bytes (map Ascii.N_of_ascii (String.list_ascii_of_string s)).

(** A server that answers every request with the given status. *)
Definition answers (status : Z) (url : string)
    (options : list (string * Val)) : @Accoil.FetchResponse string :=
  Accoil.mkFetchResponse status (Accoil.HStr "{}").

(** The inputs of the template's tests, with the traits of an identify
    call. *)
Definition inputs_for (key : string) : @Accoil.Inputs string :=
  Accoil.mkInputs
    (Accoil.HStr key) (Accoil.HStr "2024-10-24T23:03:50.941Z")
    (Accoil.HStr "user123") (Accoil.HStr "") (Accoil.HStr "custom_event")
    (Accoil.HStr "Test Page") (Accoil.HStr "test@example.com")
    (Accoil.HStr "Test User") (Accoil.HStr "admin") (Accoil.HStr "")
    (Accoil.HStr "")
    [("company", Accoil.HStr "Acme Corp"); ("email", Accoil.HStr "other@example.com");
     ("plan", Accoil.HStr "")]
    (Accoil.HStr "group_456") (Accoil.HStr "Acme Corp") (Accoil.HStr "")
    (Accoil.HStr "active") (Accoil.HStr "enterprise") (Accoil.HStr "500.0")
    [("industry", Accoil.HStr "Software"); ("employees", Accoil.HInt 100)].

Definition inputs : @Accoil.Inputs string := inputs_for "test-api-key-123".

End AccoilFixture.

(** ** The template's inputs schema and the test inputs
    ([template_accoil.py], [test_template_accoil.py]) *)

Module AccoilTemplate.

(** One entry of [inputs_schema]; [secret] is [false] where the entry has
    none. *)
Record InputSchema : Type := mkInput {
  key : string;
  type : string;
  label : string;
  description : string;
  default : option string;
  secret : bool;
  required : bool
}.

Definition inputs_schema : list InputSchema := [
  mkInput "apiKey" "string" "Accoil API Key"
    "Your Accoil API key for authentication" None true true;
  mkInput "timestamp" "string" "Timestamp"
    "Event timestamp in ISO8601 format" (Some "{event.timestamp}") false true;
  mkInput "userId" "string" "User ID"
    "Unique identifier for the user" (Some "{event.distinct_id}") false true;
  mkInput "anonymousId" "string" "Anonymous ID"
    "Anonymous identifier for the user (optional)"
    (Some "{event.properties.$anon_distinct_id}") false false;
  mkInput "event" "string" "Track: Event Name"
    "Name of the event (only used for track calls)" (Some "{event.event}")
    false false;
  mkInput "name" "string" "Page/Screen: Name"
    "Name of the page or screen (only used for page/screen calls)"
    (Some "{event.properties.title ?? event.properties.$pathname ?? event.properties.$screen_name}")
    false false;
  mkInput "email" "string" "Identify: Email"
    "User email (only used for identify calls)" (Some "{person.properties.email}")
    false false;
  mkInput "user_name" "string" "Identify: User Name"
    "User name (only used for identify calls)" (Some "{person.properties.name}")
    false false;
  mkInput "role" "string" "Identify: Role"
    "User role (only used for identify calls)" (Some "{person.properties.role}")
    false false;
  mkInput "accountStatus" "string" "Identify: Account Status"
    "Account status (only used for identify calls)"
    (Some "{person.properties.account_status}") false false;
  mkInput "createdAt" "string" "Identify: Created At"
    "User creation date (only used for identify calls)"
    (Some "{person.properties.created_at}") false false;
  mkInput "user_traits_mapping" "dictionary" "Identify: Additional User Traits"
    "Object containing additional user traits to include (only used for identify calls)"
    (Some "{person.properties}") false false;
  mkInput "groupId" "string" "Group: Group ID"
    "Group identifier (only used for group calls)"
    (Some "{event.properties.$group_key}") false false;
  mkInput "group_name" "string" "Group: Name"
    "Group name (only used for group calls)"
    (Some "{event.properties.$group_set.name}") false false;
  mkInput "group_createdAt" "string" "Group: Created At"
    "Group creation date (only used for group calls)"
    (Some "{event.properties.$group_set.created_at}") false false;
  mkInput "group_status" "string" "Group: Status"
    "Group status (only used for group calls)"
    (Some "{event.properties.$group_set.status}") false false;
  mkInput "group_plan" "string" "Group: Plan"
    "Group plan (only used for group calls)"
    (Some "{event.properties.$group_set.plan}") false false;
  mkInput "group_mrr" "number" "Group: MRR"
    "Group monthly recurring revenue (only used for group calls)"
    (Some "{event.properties.$group_set.mrr}") false false;
  mkInput "group_traits_mapping" "dictionary" "Group: Additional Group Traits"
    "Object containing additional group traits to include (only used for group calls)"
    (Some "{event.properties.$group_set}") false false
].

(** The values of the tests: Python's [str], [int], [float] (by its
    literal) and [dict]. *)
Abbreviation Val := (@Accoil.HogVal string).
Abbreviation Dict := (list (string * @Accoil.HogVal string)).

(** The defaults of [create_inputs]. *)
Definition default_inputs : Dict := [
  ("apiKey", Accoil.HStr "test-api-key-123");
  ("timestamp", Accoil.HStr "2024-10-24T23:03:50.941Z");
  ("userId", Accoil.HStr "user123");
  ("anonymousId", Accoil.HStr "");
  ("event", Accoil.HStr "custom_event");
  ("name", Accoil.HStr "Test Page");
  ("email", Accoil.HStr "test@example.com");
  ("user_name", Accoil.HStr "Test User");
  ("role", Accoil.HStr "");
  ("accountStatus", Accoil.HStr "");
  ("createdAt", Accoil.HStr "");
  ("user_traits_mapping", Accoil.HDict []);
  ("groupId", Accoil.HStr "group_123");
  ("group_name", Accoil.HStr "Test Group");
  ("group_createdAt", Accoil.HStr "");
  ("group_status", Accoil.HStr "active");
  ("group_plan", Accoil.HStr "premium");
  ("group_mrr", Accoil.HFloat "100.0");
  ("group_traits_mapping", Accoil.HDict [])
].

(** [inputs.update(kwargs)]: each keyword replaces the entry of its key, or
    is added at the end. *)
Definition dict_update (d kwargs : Dict) : Dict :=
  fold_left (fun d kv => Accoil.hog_set (fst kv) (snd kv) d) kwargs d.

(** [create_inputs], called with keywords. *)
Definition create_inputs (kwargs : Dict) : Dict :=
  let inputs := default_inputs in
  dict_update inputs kwargs.

(** The inputs of the program, read from the dictionary the test harness
    passes. *)
Definition as_dict (v : Val) : Dict :=
  match v with
  | Accoil.HDict d => d
  | _ => []
  end.

Definition inputs_of (d : Dict) : @Accoil.Inputs string :=
  Accoil.mkInputs
    (Accoil.hog_get "apiKey" d) (Accoil.hog_get "timestamp" d)
    (Accoil.hog_get "userId" d) (Accoil.hog_get "anonymousId" d)
    (Accoil.hog_get "event" d) (Accoil.hog_get "name" d)
    (Accoil.hog_get "email" d) (Accoil.hog_get "user_name" d)
    (Accoil.hog_get "role" d) (Accoil.hog_get "accountStatus" d)
    (Accoil.hog_get "createdAt" d)
    (as_dict (Accoil.hog_get "user_traits_mapping" d))
    (Accoil.hog_get "groupId" d) (Accoil.hog_get "group_name" d)
    (Accoil.hog_get "group_createdAt" d) (Accoil.hog_get "group_status" d)
    (Accoil.hog_get "group_plan" d) (Accoil.hog_get "group_mrr" d)
    (as_dict (Accoil.hog_get "group_traits_mapping" d)).

(** The body and the URL of the request the program makes in a test. *)
Definition test_body (event_name : string) (kwargs : Dict) : Dict :=
  Accoil.payload AccoilFixture.toString AccoilFixture.toFloat AccoilFixture.empty
    event_name (inputs_of (create_inputs kwargs)).

Definition test_fetch (event_name : string) (kwargs : Dict)
  : (string * Dict) * Accoil.Finish :=
  Accoil.destination AccoilFixture.toString AccoilFixture.toFloat
    AccoilFixture.empty AccoilFixture.lower AccoilFixture.substring
    AccoilFixture.base64Encode AccoilFixture.render (AccoilFixture.answers 200)
    event_name (inputs_of (create_inputs kwargs)).

Definition test_url (kwargs : Dict) : string :=
  Accoil.endpoint AccoilFixture.lower AccoilFixture.substring
    (inputs_of (create_inputs kwargs)).

End AccoilTemplate.

(** * Properties *)

Section Properties.
Local Arguments String.append : simpl nomatch.
Context {Organization User BaseModel ExecutionMode RequestData : Type}.
Context `{!EqDecision ExecutionMode}.
Variable API_QUERIES_CONCURRENCY : string.
Variable ASYNC_MODES : list ExecutionMode.
Variable is_feature_available : Organization -> string -> bool.
Variable get_model : RequestData -> Outcome QueryRequest.
Variable _process_query_request :
  QueryRequest -> option (@Team Organization) -> option string -> User ->
  Outcome (QueryNode * option string * ExecutionMode).
Variable process_query_model :
  Dispatch (@Team Organization) QueryNode ExecutionMode User ->
  Outcome (@QueryResult BaseModel).
Variable model_dump : BaseModel -> PyMapping.

Local Abbreviation W := (World (Dispatch (@Team Organization) QueryNode ExecutionMode User)).
Local Abbreviation View := (@ViewSet Organization).
Local Abbreviation Req := (@Request User RequestData).
Local Abbreviation tag_id := (@_tag_client_query_id Organization User ExecutionMode).
Local Abbreviation check :=
  (@check_team_api_queries_concurrency Organization User ExecutionMode
     API_QUERIES_CONCURRENCY is_feature_available).
Local Abbreviation key := (cache_key_of API_QUERIES_CONCURRENCY).
Local Abbreviation check_all :=
  (@check_each Organization User ExecutionMode
     API_QUERIES_CONCURRENCY is_feature_available).
Local Abbreviation run_body :=
  (run_try ASYNC_MODES _process_query_request process_query_model model_dump).
Local Abbreviation run_view :=
  (run ASYNC_MODES get_model _process_query_request process_query_model model_dump).

(** ** The cache key *)

Lemma string_length_app (s t : string) :
  String.length (s +:+ t) = (String.length s + String.length t)%nat.
Proof. induction s as [|a s IH]; simpl; [done | by f_equal]. Qed.

Lemma string_app_cancel_r (s1 s2 t : string) :
  s1 +:+ t = s2 +:+ t -> s1 = s2.
Proof.
  revert s2. induction s1 as [|a s1 IH]; intros [|b s2] H.
  - done.
  - apply (f_equal String.length) in H.
    rewrite !string_length_app in H. simpl in H. lia.
  - apply (f_equal String.length) in H.
    rewrite !string_length_app in H. simpl in H. lia.
  - simpl in H. injection H as -> H. f_equal. by apply IH.
Qed.

(** The key separates tenants: it is keyed by the team id (and the feature
    name, which is fixed). *)
Lemma cache_key_of_inj (a b : Z) : key a = key b -> a = b.
Proof.
  unfold cache_key_of. intros H.
  apply (inj (String.app "team/")) in H.
  apply string_app_cancel_r in H.
  by apply (inj pretty) in H.
Qed.

Example cache_key_of_team_7 :
  cache_key_of "api_queries_concurrency" 7 =
    "team/7/feature/api_queries_concurrency".
Proof. reflexivity. Qed.

(** ** The three paths of the feature check *)

Lemma check_hit (self : View) (w : W) (v : bool) :
  cache w !! key (team_id self) = Some v ->
  check self w = (Returned v, w).
Proof.
  intros H. unfold check_team_api_queries_concurrency, PyM.bind, cache_get.
  by rewrite H.
Qed.

Lemma check_miss_resolved (self : View) (w : W) (t : Team) :
  cache w !! key (team_id self) = None ->
  team self = Some t ->
  check self w =
    (Returned (is_feature_available (organization t) API_QUERIES_CONCURRENCY),
     mkWorld
       (<[key (team_id self) :=
            is_feature_available (organization t) API_QUERIES_CONCURRENCY]> (cache w))
       (query_tags w) (feature_calls w ++ [team_id self])
       (dispatched w) (captured w)).
Proof.
  intros H Ht. unfold check_team_api_queries_concurrency, PyM.bind, cache_get.
  by rewrite H, Ht.
Qed.

Lemma check_miss_unresolved (self : View) (w : W) :
  cache w !! key (team_id self) = None ->
  team self = None ->
  check self w = (Returned false, w).
Proof.
  intros H Ht. unfold check_team_api_queries_concurrency, PyM.bind, cache_get.
  by rewrite H, Ht.
Qed.

(** A check never removes an entry, and after a check that called the
    subscription service the tenant's entry is there. *)
Lemma check_cache_mono (self : View) (w : W) (k : string) :
  is_Some (cache w !! k) -> is_Some (cache (snd (check self w)) !! k).
Proof.
  intros Hk.
  destruct (cache w !! key (team_id self)) as [v|] eqn:Hc.
  - by rewrite (check_hit _ _ _ Hc).
  - destruct (team self) as [t|] eqn:Ht.
    + rewrite (check_miss_resolved _ _ _ Hc Ht). simpl.
      destruct (decide (key (team_id self) = k)) as [<-|Hne].
      * rewrite lookup_insert_eq. eauto.
      * by rewrite lookup_insert_ne.
    + by rewrite (check_miss_unresolved _ _ Hc Ht).
Qed.

Lemma calls_for_app (tid : Z) (l1 l2 : list Z) :
  length (filter (λ x, x = tid) (l1 ++ l2)%list) =
  (length (filter (λ x, x = tid) l1) + length (filter (λ x, x = tid) l2))%nat.
Proof. by rewrite filter_app, length_app. Qed.

(** Once the tenant's entry is cached, no later check calls the
    subscription service for it. *)
Lemma check_each_cached (views : list View) (w : W) (tid : Z) :
  is_Some (cache w !! key tid) ->
  calls_for tid (check_all views w) = calls_for tid w.
Proof.
  revert w. induction views as [|self views IH]; intros w Hk; simpl; [done|].
  rewrite IH by by apply check_cache_mono.
  destruct (cache w !! key (team_id self)) as [v|] eqn:Hc.
  - by rewrite (check_hit _ _ _ Hc).
  - destruct (team self) as [t|] eqn:Ht.
    + rewrite (check_miss_resolved _ _ _ Hc Ht).
      unfold calls_for. simpl. rewrite calls_for_app. simpl.
      destruct (decide (team_id self = tid)) as [Heq|Hne].
      * rewrite <- Heq, Hc in Hk. by destruct Hk.
      * rewrite filter_cons_False by done. simpl. lia.
    + by rewrite (check_miss_unresolved _ _ Hc Ht).
Qed.

Lemma check_each_at_most_once (views : list View) (w : W) (tid : Z) :
  (calls_for tid (check_all views w) <= calls_for tid w + 1)%nat.
Proof.
  revert w. induction views as [|self views IH]; intros w; simpl; [lia|].
  destruct (cache w !! key (team_id self)) as [v|] eqn:Hc.
  - rewrite (check_hit _ _ _ Hc). apply IH.
  - destruct (team self) as [t|] eqn:Ht.
    + rewrite (check_miss_resolved _ _ _ Hc Ht). simpl.
      destruct (decide (team_id self = tid)) as [Heq|Hne].
      * rewrite check_each_cached
          by (simpl; rewrite Heq, lookup_insert_eq; eauto).
        unfold calls_for. simpl. rewrite calls_for_app. simpl.
        rewrite filter_cons_True by done. simpl. lia.
      * etrans; [apply IH|].
        unfold calls_for. simpl. rewrite calls_for_app. simpl.
        rewrite filter_cons_False by done. simpl. lia.
    + rewrite (check_miss_unresolved _ _ Hc Ht). apply IH.
Qed.

(** ** The key names the tenant and the feature *)

Lemma pretty_N_go_no_slash (x : N) (s : string) :
  no_slash s = true -> no_slash (pretty_N_go x s) = true.
Proof.
  revert s. induction (N.lt_wf_0 x) as [x _ IH]; intros s Hs.
  assert (x = 0 \/ 0 < x)%N as [->|Hx] by lia.
  - by rewrite pretty_N_go_0.
  - rewrite pretty_N_go_step by done. apply IH; [by apply N.div_lt|].
    simpl. rewrite Hs. unfold pretty_N_char. by repeat case_match.
Qed.

Lemma pretty_Z_no_slash (z : Z) : no_slash (pretty z) = true.
Proof.
  assert (HN : forall n : N, no_slash (pretty n) = true).
  { intros n. unfold pretty, pretty_N. case_decide; [done|].
    by apply pretty_N_go_no_slash. }
  destruct z as [|p|p]; [done|apply HN|].
  unfold pretty, pretty_Z. simpl. apply (HN (N.pos p)).
Qed.

Lemma split_at_slash (a b x y : string) :
  no_slash a = true -> no_slash b = true ->
  a +:+ String (Ascii.ascii_of_nat 47) x = b +:+ String (Ascii.ascii_of_nat 47) y ->
  a = b /\ x = y.
Proof.
  revert b. induction a as [|c a IH]; intros [|d b] Ha Hb H; simpl in *.
  - by injection H as ->.
  - injection H as <- _. by rewrite Ascii.eqb_refl in Hb.
  - injection H as -> _. by rewrite Ascii.eqb_refl in Ha.
  - injection H as -> H.
    apply andb_prop in Ha as [_ Ha]. apply andb_prop in Hb as [_ Hb].
    destruct (IH _ Ha Hb H) as [-> ->]. done.
Qed.

(** Two keys are the same only for the same team id and the same feature
    name. *)
Lemma cache_key_of_inj_pair (f1 f2 : string) (t1 t2 : Z) :
  cache_key_of f1 t1 = cache_key_of f2 t2 -> t1 = t2 /\ f1 = f2.
Proof.
  unfold cache_key_of. intros H.
  apply (inj (String.app "team/")) in H.
  change ("/feature/" +:+ f1) with (String (Ascii.ascii_of_nat 47) ("feature/" +:+ f1)) in H.
  change ("/feature/" +:+ f2) with (String (Ascii.ascii_of_nat 47) ("feature/" +:+ f2)) in H.
  apply split_at_slash in H as [Ht Hf]; [|apply pretty_Z_no_slash..].
  split; [by apply (inj pretty) in Ht|].
  by apply (inj (String.app "feature/")) in Hf.
Qed.

(** ** Checks that overlap *)

Local Abbreviation step :=
  (@check_step Organization User ExecutionMode API_QUERIES_CONCURRENCY
     is_feature_available).
Local Abbreviation step_at :=
  (@step_request Organization User ExecutionMode API_QUERIES_CONCURRENCY
     is_feature_available).
Local Abbreviation scheduled :=
  (@run_schedule Organization User ExecutionMode API_QUERIES_CONCURRENCY
     is_feature_available).

(** A check that runs its three steps with no other request in between is
    the check as the function is written. *)
Lemma check_steps_alone (self : View) (w : W) :
  exists (v : bool) (w' : W),
    check self w = (Returned v, w') /\
    scheduled [0; 0; 0]%nat [(self, Started)] w = ([(self, Finished v)], w').
Proof.
  destruct (cache w !! key (team_id self)) as [v|] eqn:Hc.
  - exists v, w. split; [by apply check_hit|].
    cbn -[cache_key_of]. by rewrite Hc.
  - destruct (team self) as [t|] eqn:Ht.
    + eexists _, _. split; [by apply check_miss_resolved|].
      cbn -[cache_key_of]. by rewrite Hc, Ht.
    + exists false, w. split; [by apply check_miss_unresolved|].
      cbn -[cache_key_of]. by rewrite Hc, Ht.
Qed.

(** One step never adds more calls for a team id than it takes from the
    checks of that team id that may still call. *)
Lemma check_step_potential (self : View) (phase : CheckPhase) (w : W) (tid : Z) :
  (calls_for tid (snd (step self phase w)) + may_call tid (self, fst (step self phase w))
   <= calls_for tid w + may_call tid (self, phase))%nat.
Proof.
  unfold may_call, calls_for. cbn [fst snd].
  destruct phase as [|t|v|v]; cbn [check_step fst snd].
  - destruct (cache w !! key (team_id self)); cbn [fst snd];
      [case_bool_decide; lia|].
    destruct (team self); cbn [fst snd]; case_bool_decide; lia.
  - cbn [call_is_feature_available snd feature_calls].
    rewrite calls_for_app. simpl. case_bool_decide as Hid.
    + rewrite filter_cons_True by done. simpl. lia.
    + rewrite filter_cons_False by done. simpl. lia.
  - case_bool_decide; cbn; lia.
  - case_bool_decide; lia.
Qed.

Lemma pending_insert (tid : Z) (pool : list (View * CheckPhase)) (i : nat)
    (r r' : View * CheckPhase) :
  pool !! i = Some r ->
  (pending tid (<[i := r']> pool) + may_call tid r =
   pending tid pool + may_call tid r')%nat.
Proof.
  unfold pending. revert i. induction pool as [|a pool IH]; intros [|i] Hi;
    simpl in *; try done.
  - injection Hi as ->. lia.
  - specialize (IH _ Hi). lia.
Qed.

Lemma step_request_potential (i : nat) (pool : list (View * CheckPhase))
    (w : W) (tid : Z) :
  (calls_for tid (snd (step_at i pool w)) + pending tid (fst (step_at i pool w))
   <= calls_for tid w + pending tid pool)%nat.
Proof.
  unfold step_request.
  destruct (pool !! i) as [[self phase]|] eqn:Hi; [|done].
  pose proof (check_step_potential self phase w tid) as Hstep.
  destruct (step self phase w) as [phase' w'] eqn:Hs. cbn [fst snd] in *.
  pose proof (pending_insert tid pool i (self, phase) (self, phase') Hi). lia.
Qed.

(** However the steps of the requests are interleaved, a team id gets at
    most one call of the subscription service from each check of it that
    had not passed that call. *)
Lemma run_schedule_bound (schedule : list nat) (pool : list (View * CheckPhase))
    (w : W) (tid : Z) :
  (calls_for tid (snd (scheduled schedule pool w)) <=
   calls_for tid w + pending tid pool)%nat.
Proof.
  revert pool w. induction schedule as [|i schedule IH]; intros pool w;
    [simpl; lia|].
  cbn [run_schedule].
  pose proof (step_request_potential i pool w tid) as Hstep.
  destruct (step_at i pool w) as [pool' w'] eqn:Hs. cbn [fst snd] in Hstep.
  etrans; [apply IH|lia].
Qed.

(** C1, amended. For every tenant: when an entry is cached under the key
    [team/<team id>/feature/<feature name>], the check returns it and leaves
    the world as it was, so the subscription service is not called; when no
    entry is cached and the team resolves, it calls the subscription service
    once, caches the answer under that key and returns it, and the next
    check is a hit; when no entry is cached and the team does not resolve,
    it returns [false] and leaves the world (the cache too) as it was, so
    the next call goes the same way; the key of another team id, or of
    another feature name, is another key; over any run of checks that come
    one after another the subscription service is called at most once for a
    tenant; and however the steps of checks that overlap are interleaved,
    it is called at most once for each check of that tenant. *)
Theorem check_team_api_queries_concurrency_memoised
  (self : View) (w : W) :
  (forall v : bool,
     cache w !! key (team_id self) = Some v ->
     check self w = (Returned v, w)) /\
  (forall t : Team,
     cache w !! key (team_id self) = None ->
     team self = Some t ->
     let new_val := is_feature_available (organization t) API_QUERIES_CONCURRENCY in
     check self w =
       (Returned new_val,
        mkWorld (<[key (team_id self) := new_val]> (cache w)) (query_tags w)
          (feature_calls w ++ [team_id self]) (dispatched w) (captured w)) /\
     check self (snd (check self w)) = (Returned new_val, snd (check self w))) /\
  (cache w !! key (team_id self) = None ->
   team self = None ->
   check self w = (Returned false, w) /\
   check self (snd (check self w)) = (Returned false, w)) /\
  (forall other : View,
     team_id other <> team_id self -> key (team_id other) <> key (team_id self)) /\
  (forall (views : list View) (tid : Z),
     (calls_for tid (check_all views w) <= calls_for tid w + 1)%nat) /\
  cache_key_of API_QUERIES_CONCURRENCY (team_id self) =
    "team/" +:+ pretty (team_id self) +:+ "/feature/" +:+ API_QUERIES_CONCURRENCY /\
  (forall (feature : string) (tid : Z),
     cache_key_of feature tid =
       cache_key_of API_QUERIES_CONCURRENCY (team_id self) ->
     tid = team_id self /\ feature = API_QUERIES_CONCURRENCY) /\
  (exists (v : bool) (w' : W),
     check self w = (Returned v, w') /\
     run_schedule API_QUERIES_CONCURRENCY is_feature_available
       [0; 0; 0]%nat [(self, Started)] w = ([(self, Finished v)], w')) /\
  (forall (schedule : list nat) (pool : list (View * CheckPhase)) (tid : Z),
     (calls_for tid
        (snd (run_schedule API_QUERIES_CONCURRENCY is_feature_available
                schedule pool w))
      <= calls_for tid w + pending tid pool)%nat).
Proof.
  split; [intros v; apply check_hit|].
  split.
  { intros t Hc Ht new_val. split; [by apply check_miss_resolved|].
    rewrite (check_miss_resolved _ _ _ Hc Ht). cbn [snd].
    apply check_hit. cbn [cache]. by rewrite lookup_insert_eq. }
  split.
  { intros Hc Ht. split; [by apply check_miss_unresolved|].
    rewrite (check_miss_unresolved _ _ Hc Ht). cbn [snd].
    by apply check_miss_unresolved. }
  split.
  { intros other Hne Heq. by apply Hne, cache_key_of_inj. }
  split; [intros views tid; apply check_each_at_most_once|].
  split; [reflexivity|].
  split; [intros feature tid; apply cache_key_of_inj_pair|].
  split; [apply check_steps_alone|].
  intros schedule pool tid. apply run_schedule_bound.
Qed.

(** ** The shape of [run] *)

Ltac unfold_py :=
  unfold PyM.bind, PyM.ret, PyM.raise, PyM.lift, PyM.try_except, PyM.get,
    PyM.modify in *.

Lemma run_rejects_variant (self : View) (request : Req)
    (parsed : QueryRequest) (w : W) :
  get_model (data request) = Returned parsed ->
  isinstance_HogQLQuery (query parsed) = false ->
  run_view self request w =
    (Raised (ValidationError "This endpoint only supports HogQLQuery" PyNone), w).
Proof. intros Hp Hq. unfold run. unfold_py. by rewrite Hp, Hq. Qed.

Lemma run_enters_try (self : View) (request : Req)
    (parsed : QueryRequest) (w : W) :
  get_model (data request) = Returned parsed ->
  isinstance_HogQLQuery (query parsed) = true ->
  run_view self request w =
    PyM.try_except (run_body self request parsed) (run_except self) w.
Proof. intros Hp Hq. unfold run. unfold PyM.bind at 1, PyM.lift. by rewrite Hp, Hq. Qed.

(** Tagging touches the tags only. *)
Lemma tag_client_query_id_world (cid : option string) (w : W) :
  tag_id cid w =
    (Returned tt,
     mkWorld (cache w)
       (match cid with
        | Some c => <["client_query_id" := c]> (query_tags w)
        | None => query_tags w
        end)
       (feature_calls w) (dispatched w) (captured w)).
Proof. destruct cid; [done|]. by destruct w. Qed.

(** The [try] body when the resolved mode is asynchronous. *)
Lemma run_try_async (self : View) (request : Req) (parsed : QueryRequest)
    (w : W) (q : QueryNode) (cid : option string) (mode : ExecutionMode) :
  _process_query_request parsed (team self) (client_query_id parsed) (user request)
    = Returned (q, cid, mode) ->
  mode ∈ ASYNC_MODES ->
  run_body self request parsed w =
    (Raised (ValidationError "only sync modes are supported (refresh param)" PyNone),
     snd (tag_id cid w)).
Proof.
  intros Hr Hm. unfold run_try. unfold PyM.bind at 1, PyM.lift. rewrite Hr.
  unfold PyM.bind at 1. rewrite tag_client_query_id_world.
  by rewrite bool_decide_eq_true_2.
Qed.

(** The [try] body when the resolved mode is synchronous: the engine is
    called once, with [dispatch_call]. *)
Lemma run_try_sync (self : View) (request : Req) (parsed : QueryRequest)
    (w : W) (q : QueryNode) (cid : option string) (mode : ExecutionMode) :
  _process_query_request parsed (team self) (client_query_id parsed) (user request)
    = Returned (q, cid, mode) ->
  mode ∉ ASYNC_MODES ->
  let w1 := snd (tag_id cid w) in
  let c := dispatch_call self request q cid mode w1 in
  let w2 := mkWorld (cache w1) (query_tags w1) (feature_calls w1)
              (dispatched w1 ++ [c]) (captured w1) in
  run_body self request parsed w =
    match process_query_model c with
    | Raised e => (Raised e, w2)
    | Returned r =>
        match response_status (normalize model_dump r) w2 with
        | (Returned st, _) => (Returned (mkResponse (normalize model_dump r) st), w2)
        | (Raised e, _) => (Raised e, w2)
        end
    end.
Proof.
  intros Hr Hm. unfold run_try. unfold PyM.bind at 1, PyM.lift. rewrite Hr.
  unfold PyM.bind at 1. rewrite tag_client_query_id_world.
  rewrite bool_decide_eq_false_2 by done.
  cbn zeta. unfold dispatch_call.
  unfold PyM.bind, get_query_tag_value, PyM.get, call_process_query_model.
  cbn [snd query_tags cache feature_calls dispatched captured].
  destruct (process_query_model _) as [r|e]; [|done].
  unfold response_status.
  destruct (truthy _); [|done].
  by destruct (dict_get "query_status" (normalize model_dump r)).
Qed.

(** The [try] body leaves the cache and both service logs alone, and only
    ever adds to the tags and to the dispatch log. *)
Lemma run_try_frame (self : View) (request : Req) (parsed : QueryRequest)
    (w : W) :
  let w' := snd (run_body self request parsed w) in
  cache w' = cache w /\ feature_calls w' = feature_calls w /\
  captured w' = captured w.
Proof.
  destruct (_process_query_request parsed (team self) (client_query_id parsed)
              (user request)) as [[[q cid] mode]|e] eqn:Hr.
  - destruct (decide (mode ∈ ASYNC_MODES)) as [Hm|Hm].
    + rewrite (run_try_async _ _ _ _ _ _ _ Hr Hm).
      by rewrite tag_client_query_id_world.
    + rewrite (run_try_sync _ _ _ _ _ _ _ Hr Hm).
      rewrite tag_client_query_id_world. cbn zeta.
      destruct (process_query_model _) as [r|e]; [|done].
      by destruct (response_status _ _) as [[st|e] ?].
  - unfold run_try. unfold PyM.bind at 1, PyM.lift. by rewrite Hr.
Qed.

(** How an exception gets out of the [try] body: the resolver raises it, or
    the engine does once it is called. *)
Lemma run_try_resolver_raises (self : View) (request : Req)
    (parsed : QueryRequest) (w : W) (e : PyExc) :
  _process_query_request parsed (team self) (client_query_id parsed) (user request)
    = Raised e ->
  run_body self request parsed w = (Raised e, w).
Proof.
  intros Hr. unfold run_try. unfold PyM.bind at 1, PyM.lift. by rewrite Hr.
Qed.

Lemma run_try_engine_raises (self : View) (request : Req)
    (parsed : QueryRequest) (w : W) (q : QueryNode) (cid : option string)
    (mode : ExecutionMode) (e : PyExc) :
  _process_query_request parsed (team self) (client_query_id parsed) (user request)
    = Returned (q, cid, mode) ->
  mode ∉ ASYNC_MODES ->
  let w1 := snd (tag_id cid w) in
  let c := dispatch_call self request q cid mode w1 in
  process_query_model c = Raised e ->
  run_body self request parsed w =
    (Raised e,
     mkWorld (cache w1) (query_tags w1) (feature_calls w1)
       (dispatched w1 ++ [c]) (captured w1)).
Proof.
  intros Hr Hm w1 c He.
  rewrite (run_try_sync _ _ _ _ _ _ _ Hr Hm). cbn zeta.
  fold w1. fold c. by rewrite He.
Qed.

(** ** The regular-expression matcher *)

Lemma string_app_assoc (a b c : string) : (a +:+ b) +:+ c = a +:+ (b +:+ c).
Proof. induction a as [|x a IH]; simpl; [done | by f_equal]. Qed.

Lemma string_app_nil_r (a : string) : a +:+ "" = a.
Proof. induction a as [|x a IH]; simpl; [done | by f_equal]. Qed.

Lemma strip_prefix_app (l s : string) : strip_prefix l (l +:+ s) = Some s.
Proof.
  induction l as [|a l IH]; simpl; [done|].
  by rewrite Ascii.eqb_refl.
Qed.

Lemma strip_prefix_sound (l s s' : string) :
  strip_prefix l s = Some s' -> s = l +:+ s'.
Proof.
  revert s. induction l as [|a l IH]; intros [|b s] H; simpl in H;
    try by simplify_eq.
  destruct (Ascii.eqb a b) eqn:Hab; [|done].
  apply Ascii.eqb_eq in Hab as ->. simpl. f_equal. by apply IH.
Qed.

(** [.*] followed by [pat]: whatever line prefix is skipped, a match of
    [pat] behind it makes the whole match. *)
Lemma re_match_dotstar_complete (pat : list ReAtom) (mid s : string) :
  one_line mid = true ->
  is_Some (re_match pat s) ->
  is_Some (re_match (DotStar :: pat) (mid +:+ s)).
Proof.
  intros Hmid Hs. induction mid as [|c mid IH]; simpl in *.
  - destruct s as [|c s]; [done|].
    destruct (Ascii.eqb c newline); [done|].
    match goal with |- is_Some (match ?x with _ => _ end) => destruct x end;
      eauto.
  - apply andb_prop in Hmid as [Hc Hmid].
    apply negb_true_iff in Hc. rewrite Hc.
    specialize (IH Hmid). simpl in IH. destruct IH as [m ->]. eauto.
Qed.

Lemma re_match_dotstar_sound (pat : list ReAtom) (s m : string) :
  re_match (DotStar :: pat) s = Some m ->
  exists mid rest m' : string,
    s = mid +:+ rest /\ m = mid +:+ m' /\ one_line mid = true /\
    re_match pat rest = Some m'.
Proof.
  revert m. induction s as [|c s IH]; intros m H; simpl in H.
  - exists "", "", m. by repeat split.
  - destruct (Ascii.eqb c newline) eqn:Hc.
    + exists "", (String c s), m. by repeat split.
    + simpl in IH.
      match type of H with
      | match ?x with _ => _ end = _ => destruct x as [m1|] eqn:Hstar
      end.
      * injection H as <-.
        destruct (IH _ eq_refl) as (mid & rest & m' & -> & -> & Hmid & Hrest).
        exists (String c mid), rest, m'. repeat split; [|done].
        simpl. by rewrite Hc.
      * exists "", (String c s), m. by repeat split.
Qed.

Lemma re_search_complete (pat : list ReAtom) (pre s : string) :
  is_Some (re_match pat s) -> is_Some (re_search pat (pre +:+ s)).
Proof.
  intros Hs. induction pre as [|c pre IH]; simpl.
  - destruct s; simpl; by destruct (re_match pat _).
  - by destruct (re_match pat (String c (pre +:+ s))).
Qed.

Lemma re_search_sound (pat : list ReAtom) (s m : string) :
  re_search pat s = Some m ->
  exists pre rest : string, s = pre +:+ rest /\ re_match pat rest = Some m.
Proof.
  induction s as [|c s IH]; simpl.
  - destruct (re_match pat "") eqn:H0; [|done].
    intros [= <-]. by exists "", "".
  - destruct (re_match pat (String c s)) eqn:H0.
    + intros [= <-]. by exists "", (String c s).
    + intros H. destruct (IH H) as (pre & rest & -> & Hm).
      by exists (String c pre), rest.
Qed.

(** [.*] is greedy, stays on its line, and the leftmost match wins. *)
Example re_search_greedy :
  re_search column_pattern "x There's no column a in table b in table c" =
    Some "There's no column a in table b in table".
Proof. reflexivity. Qed.

Example re_search_one_line :
  re_search column_pattern
    ("There's no column a" +:+ String newline "in table b") = None.
Proof. reflexivity. Qed.

Example re_search_later_line :
  re_search column_pattern
    ("There's no column a" +:+ String newline "There's no column b in table c") =
    Some "There's no column b in table".
Proof. reflexivity. Qed.

Example re_search_case :
  re_search column_pattern "there's no column a in table b" = None.
Proof. reflexivity. Qed.

(** A literal at the end of a pattern. *)
Lemma re_match_lit_last (l s m : string) :
  re_match [Lit l] s = Some m <-> m = l /\ exists post, s = l +:+ post.
Proof.
  simpl. split.
  - destruct (strip_prefix l s) as [s'|] eqn:Hp; [|done].
    simpl. intros [= <-]. rewrite string_app_nil_r. split; [done|].
    exists s'. by apply strip_prefix_sound.
  - intros [-> [post ->]]. rewrite strip_prefix_app. simpl.
    by rewrite string_app_nil_r.
Qed.

(** [re.search] with [column_pattern] finds a match exactly in the texts
    that contain the column error, and the match it returns runs from
    [There's no column] to an [in table] on the same line. *)
Lemma column_search_complete (s : string) :
  contains_column_error s -> is_Some (re_search column_pattern s).
Proof.
  intros (pre & mid & post & -> & Hmid).
  apply re_search_complete. unfold column_pattern.
  change (re_match (Lit ?l :: ?p) ?x) with
    (match strip_prefix l x with
     | Some s' => String.app l <$> re_match p s'
     | None => None
     end).
  rewrite strip_prefix_app. apply fmap_is_Some.
  apply re_match_dotstar_complete; [done|].
  exists "in table". apply re_match_lit_last. eauto.
Qed.

Lemma column_search_sound (s g : string) :
  re_search column_pattern s = Some g ->
  exists pre mid post : string,
    s = pre +:+ g +:+ post /\
    g = "There's no column" +:+ mid +:+ "in table" /\
    one_line mid = true.
Proof.
  intros H. apply re_search_sound in H as (pre & rest & -> & H).
  unfold column_pattern in H.
  change (re_match (Lit ?l :: ?p) ?x) with
    (match strip_prefix l x with
     | Some s' => String.app l <$> re_match p s'
     | None => None
     end) in H.
  destruct (strip_prefix _ rest) as [s'|] eqn:Hp; [|done].
  apply strip_prefix_sound in Hp as ->.
  apply fmap_Some in H as (m1 & H & ->).
  apply re_match_dotstar_sound in H as (mid & rest' & m' & -> & -> & Hmid & H).
  apply re_match_lit_last in H as [-> [post ->]].
  exists pre, mid, post. repeat split; [|done].
  by rewrite !string_app_assoc.
Qed.

Lemma column_search_iff (s : string) :
  contains_column_error s <-> is_Some (re_search column_pattern s).
Proof.
  split; [apply column_search_complete|].
  intros [g Hg]. apply column_search_sound in Hg as (pre & mid & post & -> & -> & Hmid).
  exists pre, mid, post. split; [|done]. by rewrite !string_app_assoc.
Qed.

(** ** [handle_column_ch_error] and the last [except] clause *)

Local Abbreviation handle :=
  (@handle_column_ch_error Organization User ExecutionMode).
Local Abbreviation catch_all :=
  (@except_Exception Organization User ExecutionMode).
Local Abbreviation handlers :=
  (@run_except Organization User ExecutionMode).

(** The world after [capture_exception e]. *)
Local Abbreviation reported e w :=
  (mkWorld (cache w) (query_tags w) (feature_calls w) (dispatched w)
     (captured w ++ [e])).

Lemma handle_falsy (e : PyExc) (w : W) :
  truthy (getattr e "message" PyNone) = false ->
  handle e w = (Returned tt, w).
Proof. intros H. unfold handle_column_ch_error. by rewrite H. Qed.

Lemma handle_no_match (e : PyExc) (w : W) (m : string) :
  getattr e "message" PyNone = PyStr m ->
  re_search column_pattern m = None ->
  handle e w = (Returned tt, w).
Proof.
  intros Hm Hs. unfold handle_column_ch_error. rewrite Hm, Hs.
  by destruct (truthy _).
Qed.

Lemma handle_match (e : PyExc) (w : W) (m g : string) :
  getattr e "message" PyNone = PyStr m ->
  re_search column_pattern m = Some g ->
  handle e w = (Raised (ValidationError (g +:+ beta_note) PyNone), w).
Proof.
  intros Hm Hs. unfold handle_column_ch_error. rewrite Hm.
  destruct m as [|c m]; [by vm_compute in Hs|].
  cbn [truthy String.eqb negb]. by rewrite Hs.
Qed.

Lemma catch_all_reports (self : View) (e : PyExc) (w : W) :
  handle e w = (Returned tt, w) ->
  catch_all self e w = (Raised e, reported e w).
Proof.
  intros H. unfold except_Exception. unfold PyM.bind at 1. by rewrite H.
Qed.

Lemma catch_all_converts (self : View) (e : PyExc) (w : W) (v : PyExc) :
  handle e w = (Raised v, w) ->
  catch_all self e w = (Raised v, w).
Proof.
  intros H. unfold except_Exception. unfold PyM.bind at 1. by rewrite H.
Qed.

Lemma handlers_catch_all (self : View) (e : PyExc) :
  reaches_catch_all e = true -> handlers self e = catch_all self e.
Proof.
  destruct e as [d c|d|o]; [done..|]. simpl.
  by destruct (exc_class o).
Qed.

(** No handler touches the cache, the tags or the dispatch log. *)
Lemma handlers_frame (self : View) (e : PyExc) (w : W) :
  let w' := snd (handlers self e w) in
  cache w' = cache w /\ query_tags w' = query_tags w /\
  feature_calls w' = feature_calls w /\ dispatched w' = dispatched w.
Proof.
  assert (Hc : let w' := snd (catch_all self e w) in
    cache w' = cache w /\ query_tags w' = query_tags w /\
    feature_calls w' = feature_calls w /\ dispatched w' = dispatched w).
  { unfold except_Exception, handle_column_ch_error.
    destruct (truthy _); [|done].
    destruct (getattr e "message" PyNone); try done.
    by destruct (re_search _ _). }
  destruct e as [d c|d|o]; [done..|]. simpl.
  by destruct (exc_class o).
Qed.

(** The messages rest_framework's own exceptions do not have. *)
Lemma getattr_absent (o : ExcObject) (name : string) :
  dict_lookup name (exc_attrs o) = None -> getattr (Exc o) name PyNone = PyNone.
Proof. intros H. simpl. by rewrite H. Qed.

(** ** The claims about [run] *)

(** C2, amended. For every failure [e] that the [try] body raises and that
    reaches the last [except] clause: if its [message] attribute is a text
    containing a match of [There's no column.*in table], [run] raises a
    [ValidationError] whose message is the matched text followed by the
    beta note, and [capture_exception] is not called during the request;
    if its [message] attribute is absent or falsy, or is a text with no such
    match, [e] is reported to [capture_exception] once and then re-raised
    as it is. *)
Theorem run_catch_all_column_error
    (self : View) (request : Req) (parsed : QueryRequest) (w w' : W) (e : PyExc) :
  get_model (data request) = Returned parsed ->
  isinstance_HogQLQuery (query parsed) = true ->
  run_body self request parsed w = (Raised e, w') ->
  reaches_catch_all e = true ->
  (forall m : string,
     getattr e "message" PyNone = PyStr m ->
     contains_column_error m ->
     exists g mid : string,
       re_search column_pattern m = Some g /\
       g = "There's no column" +:+ mid +:+ "in table" /\
       run_view self request w =
         (Raised (ValidationError (g +:+ beta_note) PyNone), w') /\
       captured w' = captured w) /\
  (truthy (getattr e "message" PyNone) = false \/
   (exists m : string,
      getattr e "message" PyNone = PyStr m /\ ~ contains_column_error m) ->
   run_view self request w = (Raised e, reported e w') /\
   captured (reported e w') = (captured w ++ [e])%list).
Proof.
  intros Hp Hq Hbody Hc.
  pose proof (run_try_frame self request parsed w) as Hframe.
  rewrite Hbody in Hframe. cbn [snd] in Hframe.
  destruct Hframe as (_ & _ & Hcap).
  rewrite (run_enters_try _ _ _ _ Hp Hq). unfold PyM.try_except.
  rewrite Hbody, (handlers_catch_all _ _ Hc).
  split.
  - intros m Hm Hcontains.
    destruct (column_search_complete _ Hcontains) as [g Hg].
    destruct (column_search_sound _ _ Hg) as (pre & mid & post & _ & Hshape & _).
    exists g, mid. repeat split; [done..| |done].
    apply catch_all_converts. by eapply handle_match.
  - intros Hno. split; [|cbn [captured]; by rewrite Hcap].
    apply catch_all_reports.
    destruct Hno as [Hfalsy|(m & Hm & Hnot)]; [by apply handle_falsy|].
    eapply handle_no_match; [done|].
    destruct (re_search column_pattern m) as [g|] eqn:Hs; [|done].
    destruct Hnot. apply column_search_iff. by rewrite Hs.
Qed.

(** C9. For every exception that reaches the last [except] clause and
    whose [message] attribute is absent, [None] or otherwise falsy, the
    column special case does not apply, whatever [str(e)] is (so also when
    it contains [There's no column ... in table]): the exception is reported
    to [capture_exception] and re-raised as it is. *)
Theorem run_catch_all_without_message
    (self : View) (request : Req) (parsed : QueryRequest) (w w' : W) (e : PyExc) :
  get_model (data request) = Returned parsed ->
  isinstance_HogQLQuery (query parsed) = true ->
  run_body self request parsed w = (Raised e, w') ->
  reaches_catch_all e = true ->
  truthy (getattr e "message" PyNone) = false ->
  handle e w' = (Returned tt, w') /\
  run_view self request w = (Raised e, reported e w').
Proof.
  intros Hp Hq Hbody Hc Hfalsy.
  split; [by apply handle_falsy|].
  rewrite (run_enters_try _ _ _ _ Hp Hq). unfold PyM.try_except.
  rewrite Hbody, (handlers_catch_all _ _ Hc).
  apply catch_all_reports. by apply handle_falsy.
Qed.

(** C5. For every request during which the limiter's exhaustion error is
    raised inside the [try], [run] raises [Throttled] with exactly
    [str(c)] as its detail, hence neither a [ValidationError] nor the
    original exception, and [capture_exception] is not called. *)
Theorem run_concurrency_limit_throttled
    (self : View) (request : Req) (parsed : QueryRequest) (w w' : W)
    (c : ExcObject) :
  get_model (data request) = Returned parsed ->
  isinstance_HogQLQuery (query parsed) = true ->
  run_body self request parsed w = (Raised (Exc c), w') ->
  exc_class c = ConcurrencyLimitExceeded ->
  run_view self request w = (Raised (Throttled (exc_str c)), w') /\
  (forall detail code,
     fst (run_view self request w) <> Raised (ValidationError detail code)) /\
  fst (run_view self request w) <> Raised (Exc c) /\
  captured (snd (run_view self request w)) = captured w.
Proof.
  intros Hp Hq Hbody Hc.
  pose proof (run_try_frame self request parsed w) as Hframe.
  rewrite Hbody in Hframe. cbn [snd] in Hframe.
  destruct Hframe as (_ & _ & Hcap).
  assert (Hrun : run_view self request w = (Raised (Throttled (exc_str c)), w')).
  { rewrite (run_enters_try _ _ _ _ Hp Hq). unfold PyM.try_except.
    rewrite Hbody. simpl. by rewrite Hc. }
  rewrite Hrun. by repeat split.
Qed.

(** C6. For every request during which an [ExposedHogQLError], an
    [ExposedCHQueryError] or a [HogVMException] is raised inside the [try],
    [run] raises a [ValidationError] with [str(e)] as its message and with
    the error's [code_name] as its code when the error has one (no code
    otherwise); for a [ResolutionError] it raises a [ValidationError] with
    [str(e)] and no code. *)
Theorem run_engine_errors_validation
    (self : View) (request : Req) (parsed : QueryRequest) (w w' : W)
    (o : ExcObject) :
  get_model (data request) = Returned parsed ->
  isinstance_HogQLQuery (query parsed) = true ->
  run_body self request parsed w = (Raised (Exc o), w') ->
  (exc_class o = ExposedHogQLError \/ exc_class o = ExposedCHQueryError \/
   exc_class o = HogVMException ->
   (forall code : PyVal,
      dict_lookup "code_name" (exc_attrs o) = Some code ->
      run_view self request w = (Raised (ValidationError (exc_str o) code), w')) /\
   (dict_lookup "code_name" (exc_attrs o) = None ->
    run_view self request w = (Raised (ValidationError (exc_str o) PyNone), w'))) /\
  (exc_class o = ResolutionError ->
   run_view self request w = (Raised (ValidationError (exc_str o) PyNone), w')).
Proof.
  intros Hp Hq Hbody.
  rewrite (run_enters_try _ _ _ _ Hp Hq). unfold PyM.try_except.
  rewrite Hbody. simpl. split.
  - intros Hc. split.
    + intros code Hcode. rewrite Hcode. simpl.
      by destruct Hc as [-> | [-> | ->]].
    + intros Hcode. rewrite Hcode. simpl.
      by destruct Hc as [-> | [-> | ->]].
  - by intros ->.
Qed.

(** The whole of [run] when the resolved mode is asynchronous: the id is
    tagged, the [ValidationError] raised in the [try] falls to the last
    [except] clause (it has no [message]), is reported and re-raised. *)
Lemma run_async (self : View) (request : Req) (parsed : QueryRequest)
    (w : W) (q : QueryNode) (cid : option string) (mode : ExecutionMode) :
  get_model (data request) = Returned parsed ->
  isinstance_HogQLQuery (query parsed) = true ->
  _process_query_request parsed (team self) (client_query_id parsed) (user request)
    = Returned (q, cid, mode) ->
  mode ∈ ASYNC_MODES ->
  let rejected :=
    ValidationError "only sync modes are supported (refresh param)" PyNone in
  run_view self request w = (Raised rejected, reported rejected (snd (tag_id cid w))).
Proof.
  intros Hp Hq Hr Hm. cbn zeta.
  rewrite (run_enters_try _ _ _ _ Hp Hq). unfold PyM.try_except.
  by rewrite (run_try_async _ _ _ _ _ _ _ Hr Hm).
Qed.

(** C4. For every request whose resolved execution mode is in
    [ASYNC_MODES], [run] raises [ValidationError("only sync modes are
    supported (refresh param)")] and [process_query_model] is not called. *)
Theorem run_rejects_async_modes
    (self : View) (request : Req) (parsed : QueryRequest)
    (w : W) (q : QueryNode) (cid : option string) (mode : ExecutionMode) :
  get_model (data request) = Returned parsed ->
  isinstance_HogQLQuery (query parsed) = true ->
  _process_query_request parsed (team self) (client_query_id parsed) (user request)
    = Returned (q, cid, mode) ->
  mode ∈ ASYNC_MODES ->
  fst (run_view self request w) =
    Raised (ValidationError "only sync modes are supported (refresh param)" PyNone) /\
  dispatched (snd (run_view self request w)) = dispatched w.
Proof.
  intros Hp Hq Hr Hm. rewrite (run_async _ _ _ _ _ _ _ Hp Hq Hr Hm).
  by rewrite tag_client_query_id_world.
Qed.

(** C10. For every request whose resolved correlation id is a string and
    whose resolved mode is asynchronous, the id is tagged before the mode is
    checked: after the request is rejected with the [ValidationError],
    without any dispatch, the ambient tags carry the id. *)
Theorem run_async_tags_before_rejecting
    (self : View) (request : Req) (parsed : QueryRequest)
    (w : W) (q : QueryNode) (cid : string) (mode : ExecutionMode) :
  get_model (data request) = Returned parsed ->
  isinstance_HogQLQuery (query parsed) = true ->
  _process_query_request parsed (team self) (client_query_id parsed) (user request)
    = Returned (q, Some cid, mode) ->
  mode ∈ ASYNC_MODES ->
  cid <> "" ->
  query_tags (snd (run_view self request w)) =
    <["client_query_id" := cid]> (query_tags w) /\
  query_tags (snd (run_view self request w)) !! "client_query_id" = Some cid /\
  fst (run_view self request w) =
    Raised (ValidationError "only sync modes are supported (refresh param)" PyNone) /\
  dispatched (snd (run_view self request w)) = dispatched w.
Proof.
  intros Hp Hq Hr Hm _. rewrite (run_async _ _ _ _ _ _ _ Hp Hq Hr Hm).
  rewrite tag_client_query_id_world. cbn [fst snd query_tags dispatched].
  by rewrite lookup_insert_eq.
Qed.

(** The whole of [run] when the engine returns and the status expression
    evaluates. *)
Lemma run_responds (self : View) (request : Req) (parsed : QueryRequest)
    (w : W) (q : QueryNode) (cid : option string) (mode : ExecutionMode)
    (r : QueryResult) (st : Z) :
  get_model (data request) = Returned parsed ->
  isinstance_HogQLQuery (query parsed) = true ->
  _process_query_request parsed (team self) (client_query_id parsed) (user request)
    = Returned (q, cid, mode) ->
  mode ∉ ASYNC_MODES ->
  process_query_model (dispatch_call self request q cid mode (snd (tag_id cid w)))
    = Returned r ->
  (forall w2 : W, response_status (normalize model_dump r) w2 = (Returned st, w2)) ->
  fst (run_view self request w) = Returned (mkResponse (normalize model_dump r) st).
Proof.
  intros Hp Hq Hr Hm He Hst.
  rewrite (run_enters_try _ _ _ _ Hp Hq). unfold PyM.try_except.
  rewrite (run_try_sync _ _ _ _ _ _ _ Hr Hm). cbn zeta.
  by rewrite He, Hst.
Qed.

(** C3. For every request that is dispatched and answered, with [result]
    the normalised mapping: if [result] has a truthy [query_status] mapping
    whose [complete] is [False], the response has status 202; if
    [query_status] is missing or falsy (so also empty), or is a mapping
    with [complete] missing or anything but [False], the status is 200; and
    the body is [result] itself in every case. *)
Theorem run_response_status
    (self : View) (request : Req) (parsed : QueryRequest)
    (w : W) (q : QueryNode) (cid : option string) (mode : ExecutionMode)
    (r : QueryResult) :
  get_model (data request) = Returned parsed ->
  isinstance_HogQLQuery (query parsed) = true ->
  _process_query_request parsed (team self) (client_query_id parsed) (user request)
    = Returned (q, cid, mode) ->
  mode ∉ ASYNC_MODES ->
  process_query_model (dispatch_call self request q cid mode (snd (tag_id cid w)))
    = Returned r ->
  let result := normalize model_dump r in
  (forall qs : PyMapping,
     dict_lookup "query_status" result = Some (PyDict qs) ->
     qs <> [] ->
     dict_lookup "complete" qs = Some (PyBool false) ->
     fst (run_view self request w) = Returned (mkResponse result 202)) /\
  (dict_lookup "query_status" result = None ->
   fst (run_view self request w) = Returned (mkResponse result 200)) /\
  (forall v : PyVal,
     dict_lookup "query_status" result = Some v ->
     truthy v = false ->
     fst (run_view self request w) = Returned (mkResponse result 200)) /\
  (forall qs : PyMapping,
     dict_lookup "query_status" result = Some (PyDict qs) ->
     dict_lookup "complete" qs = None ->
     fst (run_view self request w) = Returned (mkResponse result 200)) /\
  (forall (qs : PyMapping) (v : PyVal),
     dict_lookup "query_status" result = Some (PyDict qs) ->
     dict_lookup "complete" qs = Some v ->
     v <> PyBool false ->
     fst (run_view self request w) = Returned (mkResponse result 200)).
Proof.
  intros Hp Hq Hr Hm He result.
  assert (Hrun : forall st : Z,
    (forall w2 : W, response_status result w2 = (Returned st, w2)) ->
    fst (run_view self request w) = Returned (mkResponse result st)).
  { intros st Hst. by eapply run_responds. }
  repeat split.
  - intros qs Hqs Hne Hcomplete. apply Hrun. intros w2.
    unfold response_status, dict_get. rewrite Hqs. cbn [default from_option id].
    destruct qs as [|kv qs]; [done|]. cbn [truthy].
    by rewrite Hcomplete.
  - intros Hnone. apply Hrun. intros w2.
    unfold response_status, dict_get. by rewrite Hnone.
  - intros v Hv Hfalsy. apply Hrun. intros w2.
    unfold response_status, dict_get. rewrite Hv. cbn [default from_option id].
    by rewrite Hfalsy.
  - intros qs Hqs Hcomplete. apply Hrun. intros w2.
    unfold response_status, dict_get. rewrite Hqs. cbn [default from_option id].
    rewrite Hcomplete. by destruct qs.
  - intros qs v Hqs Hcomplete Hv. apply Hrun. intros w2.
    unfold response_status, dict_get. rewrite Hqs. cbn [default from_option id].
    rewrite Hcomplete. cbn [default from_option id].
    destruct qs; [done|]. cbn [truthy].
    by destruct v as [|[|]| | | |].
Qed.

(** C7, amended. [_tag_client_query_id] attaches every string it is given,
    the empty one too, under [client_query_id], and leaves the world as it
    is only for [None]; and in every request that is dispatched, the call of
    [process_query_model] runs under tags that carry the resolved id when it
    is a string, and under the tags of the incoming world, which the whole
    request then leaves as they were, when it is [None]. *)
Theorem tag_client_query_id_attaches
    (self : View) (request : Req) (parsed : QueryRequest)
    (w : W) (q : QueryNode) (cid : option string) (mode : ExecutionMode) :
  (forall c : string,
     tag_id (Some c) w =
       (Returned tt,
        mkWorld (cache w) (<["client_query_id" := c]> (query_tags w))
          (feature_calls w) (dispatched w) (captured w))) /\
  tag_id None w = (Returned tt, w) /\
  (get_model (data request) = Returned parsed ->
   isinstance_HogQLQuery (query parsed) = true ->
   _process_query_request parsed (team self) (client_query_id parsed) (user request)
     = Returned (q, cid, mode) ->
   mode ∉ ASYNC_MODES ->
   let call := dispatch_call self request q cid mode (snd (tag_id cid w)) in
   dispatched (snd (run_view self request w)) = (dispatched w ++ [call])%list /\
   (forall c : string,
      cid = Some c ->
      d_tags call !! "client_query_id" = Some c /\
      query_tags (snd (run_view self request w)) !! "client_query_id" = Some c) /\
   (cid = None ->
    d_tags call = query_tags w /\
    query_tags (snd (run_view self request w)) = query_tags w)).
Proof.
  split; [done|]. split; [done|].
  intros Hp Hq Hr Hm call.
  assert (Hw :
    dispatched (snd (run_view self request w)) = (dispatched w ++ [call])%list /\
    query_tags (snd (run_view self request w)) = query_tags (snd (tag_id cid w))).
  { rewrite (run_enters_try _ _ _ _ Hp Hq). unfold PyM.try_except.
    rewrite (run_try_sync _ _ _ _ _ _ _ Hr Hm). cbn zeta. fold call.
    set (w2 := mkWorld _ _ _ (dispatched _ ++ [call]) _).
    assert (Hw2 : dispatched w2 = (dispatched w ++ [call])%list /\
                  query_tags w2 = query_tags (snd (tag_id cid w))).
    { subst w2. by rewrite tag_client_query_id_world. }
    assert (Hh : forall e : PyExc,
      dispatched (snd (handlers self e w2)) = (dispatched w ++ [call])%list /\
      query_tags (snd (handlers self e w2)) = query_tags (snd (tag_id cid w))).
    { intros e. destruct (handlers_frame self e w2) as (_ & Ht & _ & Hd).
      by rewrite Ht, Hd. }
    destruct (process_query_model call) as [r|e]; [|apply Hh].
    destruct (response_status _ w2) as [[st|e] w3]; [done|apply Hh]. }
  destruct Hw as [Hd Ht]. split; [done|]. split.
  - intros c ->. rewrite Ht. subst call. unfold dispatch_call.
    rewrite tag_client_query_id_world. cbn [d_tags snd query_tags].
    by rewrite lookup_insert_eq.
  - intros ->. rewrite Ht. by subst call.
Qed.

(** C8, amended. For every request whose query is not a [HogQLQuery],
    [run] raises [ValidationError("This endpoint only supports
    HogQLQuery")] and leaves the world as it was: nothing is dispatched,
    tagged, cached, reported, and the subscription service is not called. *)
Theorem run_rejects_other_variants
    (self : View) (request : Req) (parsed : QueryRequest) (w : W) :
  get_model (data request) = Returned parsed ->
  isinstance_HogQLQuery (query parsed) = false ->
  run_view self request w =
    (Raised (ValidationError "This endpoint only supports HogQLQuery" PyNone), w) /\
  dispatched (snd (run_view self request w)) = dispatched w /\
  query_tags (snd (run_view self request w)) = query_tags w /\
  cache (snd (run_view self request w)) = cache w /\
  captured (snd (run_view self request w)) = captured w /\
  feature_calls (snd (run_view self request w)) = feature_calls w.
Proof.
  intros Hp Hq. by rewrite (run_rejects_variant _ _ _ _ Hp Hq).
Qed.

(** ** Further properties of [run] *)

(** The four ways [run] can go. *)
Lemma run_cases (self : View) (request : Req) (w : W) :
  (exists e, get_model (data request) = Raised e /\
     run_view self request w = (Raised e, w)) \/
  (exists parsed, get_model (data request) = Returned parsed /\
     isinstance_HogQLQuery (query parsed) = false /\
     run_view self request w =
       (Raised (ValidationError "This endpoint only supports HogQLQuery" PyNone), w)) \/
  (exists parsed resp w1, get_model (data request) = Returned parsed /\
     isinstance_HogQLQuery (query parsed) = true /\
     run_body self request parsed w = (Returned resp, w1) /\
     run_view self request w = (Returned resp, w1)) \/
  (exists parsed e w1, get_model (data request) = Returned parsed /\
     isinstance_HogQLQuery (query parsed) = true /\
     run_body self request parsed w = (Raised e, w1) /\
     run_view self request w = handlers self e w1).
Proof.
  destruct (get_model (data request)) as [parsed|e] eqn:Hp.
  - destruct (isinstance_HogQLQuery (query parsed)) eqn:Hq.
    + right. right.
      rewrite (run_enters_try _ _ _ _ Hp Hq). unfold PyM.try_except.
      destruct (run_body self request parsed w) as [[resp|e] w1] eqn:Hbody.
      * left. by exists parsed, resp, w1.
      * right. by exists parsed, e, w1.
    + right. left. exists parsed. repeat split; [done|].
      by apply (run_rejects_variant _ _ parsed).
  - left. exists e. split; [done|].
    unfold run. unfold PyM.bind, PyM.lift. by rewrite Hp.
Qed.

(** What the [try] body does to the dispatch log and to the tags. *)
Lemma run_try_effects (self : View) (request : Req) (parsed : QueryRequest)
    (w : W) :
  let w1 := snd (run_body self request parsed w) in
  (dispatched w1 = dispatched w \/
   exists c, dispatched w1 = (dispatched w ++ [c])%list) /\
  (forall k : string,
     k <> "client_query_id" -> query_tags w1 !! k = query_tags w !! k).
Proof.
  assert (Htag : forall (cid : option string) (k : string),
    k <> "client_query_id" ->
    query_tags (snd (tag_id cid w)) !! k = query_tags w !! k).
  { intros cid k Hk. rewrite tag_client_query_id_world. cbn [snd query_tags].
    destruct cid; [|done]. by rewrite lookup_insert_ne. }
  destruct (_process_query_request parsed (team self) (client_query_id parsed)
              (user request)) as [[[q cid] mode]|e] eqn:Hr.
  - destruct (decide (mode ∈ ASYNC_MODES)) as [Hm|Hm].
    + rewrite (run_try_async _ _ _ _ _ _ _ Hr Hm). cbn [snd].
      split; [|by apply Htag].
      left. by rewrite tag_client_query_id_world.
    + rewrite (run_try_sync _ _ _ _ _ _ _ Hr Hm). cbn zeta.
      set (c := dispatch_call _ _ _ _ _ _).
      assert (Hd : dispatched (snd (tag_id cid w)) = dispatched w)
        by by rewrite tag_client_query_id_world.
      destruct (process_query_model c) as [r|e].
      * destruct (response_status _ _) as [[st|e] w3]; cbn [snd dispatched query_tags];
          (split; [right; exists c; by rewrite Hd | by apply Htag]).
      * cbn [snd dispatched query_tags].
        split; [right; exists c; by rewrite Hd | by apply Htag].
  - rewrite (run_try_resolver_raises _ _ _ _ _ Hr). by split; [left|].
Qed.

(** A handler reports at most the exception it was given. *)
Lemma handlers_report (self : View) (e : PyExc) (w : W) :
  captured (snd (handlers self e w)) = captured w \/
  captured (snd (handlers self e w)) = (captured w ++ [e])%list.
Proof.
  assert (Hc : captured (snd (catch_all self e w)) = captured w \/
               captured (snd (catch_all self e w)) = (captured w ++ [e])%list).
  { unfold except_Exception, handle_column_ch_error.
    destruct (truthy _); [|by right].
    destruct (getattr e "message" PyNone); try by left.
    destruct (re_search _ _); [by left|by right]. }
  destruct e as [d c|d|o]; [done..|]. simpl.
  destruct (exc_class o); try done; by left.
Qed.

(** X1. Whatever the request and the collaborators do, [run] never writes
    the feature cache and never calls the subscription service; it calls
    the engine at most once and [capture_exception] at most once. *)
Theorem run_effects_bounded (self : View) (request : Req) (w : W) :
  let w' :=
    snd (run ASYNC_MODES get_model _process_query_request process_query_model
           model_dump self request w) in
  cache w' = cache w /\
  feature_calls w' = feature_calls w /\
  (dispatched w' = dispatched w \/
   exists c, dispatched w' = (dispatched w ++ [c])%list) /\
  (captured w' = captured w \/
   exists e, captured w' = (captured w ++ [e])%list).
Proof.
  cbn zeta.
  destruct (run_cases self request w)
    as [(e & _ & ->) | [(parsed & _ & _ & ->) |
        [(parsed & resp & w1 & _ & _ & Hbody & ->) |
         (parsed & e & w1 & _ & _ & Hbody & ->)]]];
    [by repeat split; left..| |].
  - pose proof (run_try_frame self request parsed w) as (Hc & Hf & Hcap).
    pose proof (run_try_effects self request parsed w) as (Hd & _).
    rewrite Hbody in Hc, Hf, Hcap, Hd. cbn [snd] in *.
    repeat split; [done..|]. by left.
  - pose proof (run_try_frame self request parsed w) as (Hc & Hf & Hcap).
    pose proof (run_try_effects self request parsed w) as (Hd & _).
    rewrite Hbody in Hc, Hf, Hcap, Hd. cbn [snd] in *.
    destruct (handlers_frame self e w1) as (Hc' & _ & Hf' & Hd').
    rewrite Hc', Hf', Hd', Hc, Hf.
    repeat split; [done|].
    destruct (handlers_report self e w1) as [-> | ->]; rewrite Hcap;
      [by left | right; by exists e].
Qed.

(** X3. A request rejected for its asynchronous mode is raised inside the
    [try], so it falls to the last [except] clause: the [ValidationError]
    is reported to [capture_exception] once before it is re-raised. *)
Theorem run_async_rejection_is_reported
    (self : View) (request : Req) (parsed : QueryRequest)
    (w : W) (q : QueryNode) (cid : option string) (mode : ExecutionMode) :
  get_model (data request) = Returned parsed ->
  isinstance_HogQLQuery (query parsed) = true ->
  _process_query_request parsed (team self) (client_query_id parsed) (user request)
    = Returned (q, cid, mode) ->
  mode ∈ ASYNC_MODES ->
  captured (snd (run_view self request w)) =
    (captured w ++
     [ValidationError "only sync modes are supported (refresh param)" PyNone])%list.
Proof.
  intros Hp Hq Hr Hm. rewrite (run_async _ _ _ _ _ _ _ Hp Hq Hr Hm).
  by rewrite tag_client_query_id_world.
Qed.

(** Every handler raises, and what it raises is a [ValidationError], a
    [Throttled] or an exception of none of the classes the handlers name. *)
Lemma handlers_raise (self : View) (e0 : PyExc) (w : W) :
  exists e, fst (handlers self e0 w) = Raised e /\ reaches_catch_all e = true.
Proof.
  assert (Hc : reaches_catch_all e0 = true ->
    exists e, fst (catch_all self e0 w) = Raised e /\ reaches_catch_all e = true).
  { intros H0. unfold except_Exception, handle_column_ch_error.
    destruct (truthy _); [|by exists e0].
    destruct (getattr e0 "message" PyNone);
      try (by eexists (TypeError _)).
    destruct (re_search _ _); [by eexists (ValidationError _ _)|by exists e0]. }
  destruct e0 as [d c|d|o]; [by apply Hc..|]. simpl.
  destruct (exc_class o) eqn:Hcls;
    try (by eexists (ValidationError _ _)); [by eexists (Throttled _)|].
  apply Hc. simpl. by rewrite Hcls.
Qed.

(** X4. Once the request is parsed, whatever [run] raises is a
    [ValidationError], a [Throttled], or an exception that belongs to none
    of [ExposedHogQLError], [ExposedCHQueryError], [HogVMException],
    [ResolutionError] and [ConcurrencyLimitExceeded]: no error of these
    five classes gets out as it is. *)
Theorem run_raises_normalised
    (self : View) (request : Req) (parsed : QueryRequest) (w : W) (e : PyExc) :
  get_model (data request) = Returned parsed ->
  fst (run_view self request w) = Raised e ->
  (exists detail code, e = ValidationError detail code) \/
  (exists detail, e = Throttled detail) \/
  (exists o name, e = Exc o /\ exc_class o = OtherException name).
Proof.
  intros Hp Hrun.
  assert (Hclass : reaches_catch_all e = true).
  { destruct (run_cases self request w)
      as [(e1 & Hp1 & _) | [(parsed1 & _ & _ & H) |
          [(parsed1 & resp & w1 & _ & _ & _ & H) |
           (parsed1 & e1 & w1 & _ & _ & _ & H)]]].
    - congruence.
    - rewrite H in Hrun. by injection Hrun as <-.
    - by rewrite H in Hrun.
    - rewrite H in Hrun.
      destruct (handlers_raise self e1 w1) as (e2 & He2 & Hc2). congruence. }
  destruct e as [d c|d|o]; [left; eauto | right; left; eauto|].
  right. right. simpl in Hclass.
  destruct (exc_class o) as [| | | | |name] eqn:Hcls; try done.
  by exists o, name.
Qed.

(** The world after the engine has been called. *)
Local Abbreviation called c w :=
  (mkWorld (cache w) (query_tags w) (feature_calls w) (dispatched w ++ [c])
     (captured w)).

(** X5. When the engine's result has a truthy [query_status] that is not a
    mapping, the status expression fails on [.get]: after the dispatch,
    [run] raises an [AttributeError] instead of answering, and reports it
    to [capture_exception]. *)
Theorem run_query_status_not_mapping
    (self : View) (request : Req) (parsed : QueryRequest)
    (w : W) (q : QueryNode) (cid : option string) (mode : ExecutionMode)
    (r : QueryResult) (v : PyVal) :
  get_model (data request) = Returned parsed ->
  isinstance_HogQLQuery (query parsed) = true ->
  _process_query_request parsed (team self) (client_query_id parsed) (user request)
    = Returned (q, cid, mode) ->
  mode ∉ ASYNC_MODES ->
  let c := dispatch_call self request q cid mode (snd (tag_id cid w)) in
  process_query_model c = Returned r ->
  dict_lookup "query_status" (normalize model_dump r) = Some v ->
  truthy v = true ->
  (forall qs, v <> PyDict qs) ->
  fst (run_view self request w) = Raised (AttributeError v "get") /\
  dispatched (snd (run_view self request w)) = (dispatched w ++ [c])%list /\
  captured (snd (run_view self request w)) =
    (captured w ++ [AttributeError v "get"])%list.
Proof.
  intros Hp Hq Hr Hm c He Hv Ht Hnd.
  rewrite (run_enters_try _ _ _ _ Hp Hq). unfold PyM.try_except.
  rewrite (run_try_sync _ _ _ _ _ _ _ Hr Hm). cbn zeta. fold c. rewrite He.
  assert (Hst : forall w2 : W,
    response_status (normalize model_dump r) w2 =
      (Raised (AttributeError v "get"), w2)).
  { intros w2. unfold response_status, dict_get. rewrite Hv.
    cbn [default from_option id]. rewrite Ht.
    destruct v; try done. by destruct (Hnd d). }
  rewrite Hst.
  assert (Hfalsy : truthy (getattr (AttributeError v "get") "message" PyNone) = false)
    by done.
  change (handlers self (AttributeError v "get")) with
    (catch_all self (AttributeError v "get")).
  rewrite (catch_all_reports self _ _ (handle_falsy _ _ Hfalsy)).
  by rewrite tag_client_query_id_world.
Qed.

(** X6. When an exception reaches the last [except] clause with a truthy
    [message] that is not a string, [re.search] fails: [run] raises a
    [TypeError], and the original exception is neither reported nor
    re-raised. *)
Theorem run_catch_all_message_not_text
    (self : View) (request : Req) (parsed : QueryRequest) (w w' : W) (e : PyExc) :
  get_model (data request) = Returned parsed ->
  isinstance_HogQLQuery (query parsed) = true ->
  run_body self request parsed w = (Raised e, w') ->
  reaches_catch_all e = true ->
  truthy (getattr e "message" PyNone) = true ->
  (forall m, getattr e "message" PyNone <> PyStr m) ->
  (exists text, run_view self request w = (Raised (TypeError text), w')) /\
  captured (snd (run_view self request w)) = captured w.
Proof.
  intros Hp Hq Hbody Hc Ht Hns.
  pose proof (run_try_frame self request parsed w) as (_ & _ & Hcap).
  rewrite Hbody in Hcap. cbn [snd] in Hcap.
  rewrite (run_enters_try _ _ _ _ Hp Hq). unfold PyM.try_except.
  rewrite Hbody, (handlers_catch_all _ _ Hc).
  assert (Hh : exists text, handle e w' = (Raised (TypeError text), w')).
  { unfold handle_column_ch_error. rewrite Ht.
    destruct (getattr e "message" PyNone) as [| | |m| |]; try done;
      try (by eexists).
    by destruct (Hns m). }
  destruct Hh as [text Hh].
  rewrite (catch_all_converts _ _ _ _ Hh). split; [eauto|done].
Qed.

(** When the status expression evaluates, it gives 200 or 202, and 202
    only for a nonempty [query_status] mapping whose [complete] is
    [False]. *)
Lemma response_status_returns (result : PyMapping) (w w3 : W) (st : Z) :
  response_status result w = (Returned st, w3) ->
  w3 = w /\ (st = 200 \/ st = 202) /\
  (st = 202 <->
   exists qs, dict_lookup "query_status" result = Some (PyDict qs) /\
              qs <> [] /\ dict_lookup "complete" qs = Some (PyBool false)).
Proof.
  unfold response_status, dict_get.
  destruct (dict_lookup "query_status" result) as [v|] eqn:Hv;
    cbn [default from_option id].
  - destruct (truthy v) eqn:Ht.
    + destruct v as [|b|n|s|l|d]; try done.
      destruct d as [|kv d]; [done|].
      destruct (dict_lookup "complete" (kv :: d)) as [cv|] eqn:Hc;
        cbn [default from_option id].
      * destruct (is_False cv) eqn:Hf; intros [= <- <-].
        -- split; [done|]. split; [by right|]. split; [|done].
           intros _. exists (kv :: d). repeat split; [done|].
           by destruct cv as [|[|]| | | |].
        -- split; [done|]. split; [by left|]. split; [done|].
           intros (qs & [= <-] & _ & Hqs). rewrite Hc in Hqs.
           injection Hqs as ->. done.
      * intros [= <- <-]. split; [done|]. split; [by left|]. split; [done|].
        intros (qs & [= <-] & _ & Hqs). by rewrite Hc in Hqs.
    + intros [= <- <-]. split; [done|]. split; [by left|]. split; [done|].
      intros (qs & [= ->] & Hne & _). by destruct qs.
  - intros [= <- <-]. split; [done|]. split; [by left|]. split; [done|].
    by intros (qs & ? & _).
Qed.

(** X7. Whenever [run] answers with a response: the mode was synchronous,
    the engine was called exactly once and returned; the body is its
    normalised result; nothing was reported; the status is 200 or 202, and
    it is 202 exactly when the body has a nonempty [query_status] mapping
    whose [complete] is [False]. *)
Theorem run_response_inversion
    (self : View) (request : Req) (w : W) (resp : Response) :
  fst (run_view self request w) = Returned resp ->
  exists (parsed : QueryRequest) (q : QueryNode) (cid : option string)
         (mode : ExecutionMode) (r : QueryResult),
    get_model (data request) = Returned parsed /\
    _process_query_request parsed (team self) (client_query_id parsed)
      (user request) = Returned (q, cid, mode) /\
    (mode ∉ ASYNC_MODES) /\
    let c := dispatch_call self request q cid mode (snd (tag_id cid w)) in
    process_query_model c = Returned r /\
    body resp = normalize model_dump r /\
    dispatched (snd (run_view self request w)) = (dispatched w ++ [c])%list /\
    captured (snd (run_view self request w)) = captured w /\
    (status resp = 200 \/ status resp = 202) /\
    (status resp = 202 <->
     exists qs, dict_lookup "query_status" (body resp) = Some (PyDict qs) /\
                qs <> [] /\ dict_lookup "complete" qs = Some (PyBool false)).
Proof.
  intros Hrun.
  destruct (run_cases self request w)
    as [(e & _ & H) | [(parsed & _ & _ & H) |
        [(parsed & resp' & w1 & Hp & Hq & Hbody & H) |
         (parsed & e & w1 & _ & _ & _ & H)]]].
  - by rewrite H in Hrun.
  - by rewrite H in Hrun.
  - rewrite H in Hrun. injection Hrun as ->. rewrite H. cbn [snd].
    destruct (_process_query_request parsed (team self) (client_query_id parsed)
                (user request)) as [[[q cid] mode]|e] eqn:Hr;
      [|by rewrite (run_try_resolver_raises _ _ _ _ _ Hr) in Hbody].
    destruct (decide (mode ∈ ASYNC_MODES)) as [Hm|Hm];
      [by rewrite (run_try_async _ _ _ _ _ _ _ Hr Hm) in Hbody|].
    rewrite (run_try_sync _ _ _ _ _ _ _ Hr Hm) in Hbody. cbn zeta in Hbody.
    destruct (process_query_model _) as [r|e] eqn:He; [|done].
    destruct (response_status _ _) as [[st|e] w3] eqn:Hst; [|done].
    injection Hbody as <- <-.
    apply response_status_returns in Hst as (_ & H200 & H202).
    exists parsed, q, cid, mode, r. cbn zeta.
    repeat split; try done; try apply H202.
    all: by rewrite tag_client_query_id_world.
  - rewrite H in Hrun.
    destruct (handlers_raise self e w1) as (e2 & He2 & _). congruence.
Qed.

(** X8. When the resolver itself raises, the error goes through the same
    handlers as an engine error, and nothing has been tagged or dispatched. *)
Theorem run_resolver_failure
    (self : View) (request : Req) (parsed : QueryRequest) (w : W) (e : PyExc) :
  get_model (data request) = Returned parsed ->
  isinstance_HogQLQuery (query parsed) = true ->
  _process_query_request parsed (team self) (client_query_id parsed) (user request)
    = Raised e ->
  run_view self request w = handlers self e w /\
  query_tags (snd (run_view self request w)) = query_tags w /\
  dispatched (snd (run_view self request w)) = dispatched w /\
  (forall o, e = Exc o -> exc_class o = ConcurrencyLimitExceeded ->
     run_view self request w = (Raised (Throttled (exc_str o)), w)).
Proof.
  intros Hp Hq Hr.
  assert (Hrun : run_view self request w = handlers self e w).
  { rewrite (run_enters_try _ _ _ _ Hp Hq). unfold PyM.try_except.
    by rewrite (run_try_resolver_raises _ _ _ _ _ Hr). }
  rewrite Hrun. destruct (handlers_frame self e w) as (_ & Ht & _ & Hd).
  repeat split; [done..|].
  intros o -> Hc. simpl. by rewrite Hc.
Qed.

(** The dispatch log after a request whose resolved mode is synchronous. *)
Lemma run_sync_dispatched (self : View) (request : Req) (parsed : QueryRequest)
    (w : W) (q : QueryNode) (cid : option string) (mode : ExecutionMode) :
  get_model (data request) = Returned parsed ->
  isinstance_HogQLQuery (query parsed) = true ->
  _process_query_request parsed (team self) (client_query_id parsed) (user request)
    = Returned (q, cid, mode) ->
  mode ∉ ASYNC_MODES ->
  dispatched (snd (run_view self request w)) =
    (dispatched w ++ [dispatch_call self request q cid mode (snd (tag_id cid w))])%list.
Proof.
  intros Hp Hq Hr Hm.
  rewrite (run_enters_try _ _ _ _ Hp Hq). unfold PyM.try_except.
  rewrite (run_try_sync _ _ _ _ _ _ _ Hr Hm). cbn zeta.
  set (c := dispatch_call _ _ _ _ _ _).
  set (w2 := mkWorld _ _ _ (dispatched _ ++ [c]) _).
  assert (Hw2 : dispatched w2 = (dispatched w ++ [c])%list).
  { subst w2. by rewrite tag_client_query_id_world. }
  assert (Hh : forall e : PyExc,
    dispatched (snd (handlers self e w2)) = (dispatched w ++ [c])%list).
  { intros e. destruct (handlers_frame self e w2) as (_ & _ & _ & Hd).
    by rewrite Hd. }
  destruct (process_query_model c) as [r|e]; [|apply Hh].
  destruct (response_status _ w2) as [[st|e] w3]; [done|apply Hh].
Qed.

(** X9. For every request whose resolved mode is synchronous, the engine is
    called once with the team of the view, the resolved query, mode and id
    and the user of the request, and it is told it serves the query
    service exactly when the request came in with the ambient tag
    [access_method] set to [personal_api_key]; tagging the id does not
    change that. *)
Theorem run_dispatch_arguments
    (self : View) (request : Req) (parsed : QueryRequest)
    (w : W) (q : QueryNode) (cid : option string) (mode : ExecutionMode) :
  get_model (data request) = Returned parsed ->
  isinstance_HogQLQuery (query parsed) = true ->
  _process_query_request parsed (team self) (client_query_id parsed) (user request)
    = Returned (q, cid, mode) ->
  mode ∉ ASYNC_MODES ->
  exists c,
    dispatched (snd (run_view self request w)) = (dispatched w ++ [c])%list /\
    d_team c = team self /\ d_query c = q /\ d_execution_mode c = mode /\
    d_query_id c = cid /\ d_user c = user request /\
    d_is_query_service c =
      bool_decide (query_tags w !! "access_method" = Some "personal_api_key").
Proof.
  intros Hp Hq Hr Hm.
  exists (dispatch_call self request q cid mode (snd (tag_id cid w))).
  split; [by apply (run_sync_dispatched _ _ parsed)|].
  repeat split. unfold dispatch_call. cbn [d_is_query_service].
  rewrite tag_client_query_id_world. cbn [snd query_tags].
  destruct cid as [c|]; [|done]. by rewrite lookup_insert_ne.
Qed.

(** ** Further properties of the feature check *)

(** A check writes the key of its own team id only, and only when that key
    has no entry. *)
Lemma check_keeps_entry (self : View) (w : W) (k : string) (v : bool) :
  cache w !! k = Some v -> cache (snd (check self w)) !! k = Some v.
Proof.
  intros Hk.
  destruct (cache w !! key (team_id self)) as [v'|] eqn:Hc.
  - by rewrite (check_hit _ _ _ Hc).
  - destruct (team self) as [t|] eqn:Ht.
    + rewrite (check_miss_resolved _ _ _ Hc Ht). cbn [snd cache].
      rewrite lookup_insert_ne; [done|]. intros <-. congruence.
    + by rewrite (check_miss_unresolved _ _ Hc Ht).
Qed.

Lemma check_other_key (self : View) (w : W) (k : string) :
  k <> key (team_id self) -> cache (snd (check self w)) !! k = cache w !! k.
Proof.
  intros Hk.
  destruct (cache w !! key (team_id self)) as [v'|] eqn:Hc.
  - by rewrite (check_hit _ _ _ Hc).
  - destruct (team self) as [t|] eqn:Ht.
    + rewrite (check_miss_resolved _ _ _ Hc Ht). cbn [snd cache].
      by rewrite lookup_insert_ne.
    + by rewrite (check_miss_unresolved _ _ Hc Ht).
Qed.

Lemma check_each_keeps (views : list View) (w : W) (k : string) (v : bool) :
  cache w !! k = Some v -> cache (check_all views w) !! k = Some v.
Proof.
  revert w. induction views as [|a views IH]; intros w Hk; [done|].
  simpl. apply IH. by apply check_keeps_entry.
Qed.


(** X11. Tenants are isolated: a check for one team id neither changes the
    cached entry of another team id nor calls the subscription service on
    its behalf. *)
Theorem check_other_tenant_untouched (self other : View) (w : W) :
  team_id other <> team_id self ->
  cache (snd (check self w)) !! key (team_id other) =
    cache w !! key (team_id other) /\
  calls_for (team_id other) (snd (check self w)) = calls_for (team_id other) w.
Proof.
  intros Hne. split.
  - apply check_other_key. intros Heq. by apply Hne, cache_key_of_inj.
  - destruct (cache w !! key (team_id self)) as [v'|] eqn:Hc.
    + by rewrite (check_hit _ _ _ Hc).
    + destruct (team self) as [t|] eqn:Ht.
      * rewrite (check_miss_resolved _ _ _ Hc Ht).
        unfold calls_for. cbn [snd feature_calls].
        rewrite calls_for_app. simpl.
        rewrite filter_cons_False by (intros ?; by apply Hne).
        simpl. lia.
      * by rewrite (check_miss_unresolved _ _ Hc Ht).
Qed.

(** X12. Every entry that a run of checks adds to the cache is the answer
    the subscription service gave for the organization of a view of that
    team id whose team resolved. *)
Theorem check_each_entry_provenance
    (views : list View) (w : W) (tid : Z) (v : bool) :
  cache w !! key tid = None ->
  cache (check_all views w) !! key tid = Some v ->
  exists (self : View) (t : Team),
    self ∈ views /\ team_id self = tid /\ team self = Some t /\
    v = is_feature_available (organization t) API_QUERIES_CONCURRENCY.
Proof.
  revert w. induction views as [|a views IH]; intros w Hnone Hsome; simpl in Hsome.
  - congruence.
  - destruct (cache (snd (check a w)) !! key tid) as [v'|] eqn:Hstep.
    + pose proof (check_each_keeps views _ _ _ Hstep) as Hkeep.
      assert (v' = v) as -> by congruence.
      destruct (decide (team_id a = tid)) as [Ha|Ha].
      * subst tid.
        destruct (team a) as [t|] eqn:Ht.
        -- rewrite (check_miss_resolved _ _ _ Hnone Ht) in Hstep.
           cbn [snd cache] in Hstep. rewrite lookup_insert_eq in Hstep.
           injection Hstep as <-.
           exists a, t. split; [by left|done].
        -- rewrite (check_miss_unresolved _ _ Hnone Ht) in Hstep.
           cbn [snd] in Hstep. congruence.
      * rewrite check_other_key in Hstep; [congruence|].
        intros Heq. apply Ha. symmetry. by apply cache_key_of_inj.
    + destruct (IH _ Hstep Hsome) as (self & t & Hin & Hid & Ht & Hv).
      exists self, t. split; [by right|done].
Qed.

(** X13. Tenants whose team does not resolve never populate the cache and
    never reach the subscription service: a run of checks by such views
    leaves the world as it was. *)
Theorem check_each_unresolved (views : list View) (w : W) :
  Forall (fun self => team self = None) views ->
  check_each API_QUERIES_CONCURRENCY is_feature_available views w = w.
Proof.
  induction 1 as [|a views Ha _ IH]; [done|]. simpl.
  destruct (cache w !! key (team_id a)) as [v|] eqn:Hc.
  - by rewrite (check_hit _ _ _ Hc).
  - by rewrite (check_miss_unresolved _ _ Hc Ha).
Qed.

(** ** The message of the column special case *)

Lemma one_line_app (a b : string) :
  one_line (a +:+ b) = one_line a && one_line b.
Proof. induction a as [|c a IH]; simpl; [done|]. by rewrite IH, andb_assoc. Qed.

(** X14. Whenever [handle_column_ch_error] raises a [ValidationError], its
    message is one line: it runs from [There's no column] to an [in table]
    of the same line of the engine's message, followed by the beta note;
    whatever the engine wrote before, after, or on other lines (a stack
    trace, say) is not in it. It has no code, and the world is as it
    was. *)
Theorem handle_column_message_one_line
    (e : PyExc) (w w' : W) (detail : string) (code : PyVal) :
  handle e w = (Raised (ValidationError detail code), w') ->
  w' = w /\ code = PyNone /\ one_line detail = true /\
  exists m pre mid post : string,
    getattr e "message" PyNone = PyStr m /\
    m = pre +:+ "There's no column" +:+ mid +:+ "in table" +:+ post /\
    detail = "There's no column" +:+ mid +:+ "in table" +:+ beta_note.
Proof.
  unfold handle_column_ch_error.
  destruct (truthy _); [|done].
  destruct (getattr e "message" PyNone) as [| | |m| |]; try done.
  destruct (re_search column_pattern m) as [g|] eqn:Hg; [|done].
  intros [= <- <- <-].
  destruct (column_search_sound _ _ Hg) as (pre & mid & post & -> & -> & Hmid).
  repeat split.
  - rewrite !one_line_app, Hmid. reflexivity.
  - exists (pre +:+ ("There's no column" +:+ mid +:+ "in table") +:+ post),
      pre, mid, post.
    split; [done|]. by rewrite !string_app_assoc.
Qed.
End Properties.

(** * Properties of the Accoil destination *)

Section AccoilProperties.
Context {Float : Type}.
Variable toString : @Accoil.HogVal Float -> string.
Variable toFloat : @Accoil.HogVal Float -> @Accoil.HogVal Float.
Variable empty : @Accoil.HogVal Float -> bool.
Variable lower : @Accoil.HogVal Float -> @Accoil.HogVal Float.
Variable substring : @Accoil.HogVal Float -> Z -> Z -> @Accoil.HogVal Float.

Local Abbreviation Val := (@Accoil.HogVal Float).
Local Abbreviation Dict := (list (string * @Accoil.HogVal Float)).
Local Abbreviation merge := (Accoil.merge_mapping empty).
Local Abbreviation merge1 := (Accoil.merge_entry empty).
Local Abbreviation body_of := (Accoil.payload toString toFloat empty).

(** ** Dictionaries *)

Lemma hog_lookup_set_eq (k : string) (v : Val) (d : Dict) :
  Accoil.hog_lookup k (Accoil.hog_set k v d) = Some v.
Proof.
  induction d as [|[k' v'] d IH]; simpl.
  - by rewrite String.eqb_refl.
  - destruct (String.eqb k k') eqn:Hk; simpl; rewrite ?String.eqb_refl, ?Hk; done.
Qed.

Lemma hog_lookup_set_ne (k k' : string) (v : Val) (d : Dict) :
  k <> k' ->
  Accoil.hog_lookup k (Accoil.hog_set k' v d) = Accoil.hog_lookup k d.
Proof.
  intros Hne. apply String.eqb_neq in Hne.
  induction d as [|[k1 v1] d IH]; simpl.
  - by rewrite Hne.
  - destruct (String.eqb k' k1) eqn:Hk1; simpl.
    + apply String.eqb_eq in Hk1 as ->. by rewrite Hne.
    + by rewrite IH.
Qed.

Lemma hog_lookup_elem (k : string) (v : Val) (d : Dict) :
  Accoil.hog_lookup k d = Some v -> (k, v) ∈ d.
Proof.
  induction d as [|[k' v'] d IH]; simpl; [done|].
  destruct (String.eqb k k') eqn:Hk.
  - apply String.eqb_eq in Hk as ->. intros [= ->]. by left.
  - intros H. right. by apply IH.
Qed.

(** ** The loop over a traits mapping *)

Lemma merge_entry_keeps (traits : Dict) (entry : string * Val) (k : string) (v : Val) :
  Accoil.hog_lookup k traits = Some v ->
  empty v = false ->
  Accoil.hog_lookup k (merge1 traits entry) = Some v.
Proof.
  intros Hk Hv. destruct entry as [key value]. unfold Accoil.merge_entry.
  destruct (decide (k = key)) as [<-|Hne].
  - unfold Accoil.hog_get. rewrite Hk. simpl. by rewrite Hv.
  - destruct (_ && _); [|done]. by rewrite hog_lookup_set_ne.
Qed.

Lemma merge_entry_other (traits : Dict) (key k : string) (value : Val) :
  k <> key ->
  Accoil.hog_lookup k (merge1 traits (key, value)) = Accoil.hog_lookup k traits.
Proof.
  intros Hne. unfold Accoil.merge_entry.
  destruct (_ && _); [|done]. by rewrite hog_lookup_set_ne.
Qed.

Lemma merge_loop_keeps (mapping traits : Dict) (k : string) (v : Val) :
  Accoil.hog_lookup k traits = Some v ->
  empty v = false ->
  Accoil.hog_lookup k (fold_left merge1 mapping traits) = Some v.
Proof.
  revert traits. induction mapping as [|entry mapping IH]; intros traits Hk Hv;
    [done|].
  simpl. apply IH; [|done]. by apply merge_entry_keeps.
Qed.

Lemma merge_loop_absent (mapping traits : Dict) (k : string) :
  k ∉ map fst mapping ->
  Accoil.hog_lookup k (fold_left merge1 mapping traits) =
    Accoil.hog_lookup k traits.
Proof.
  revert traits. induction mapping as [|[key value] mapping IH]; intros traits Hk;
    [done|].
  simpl in *. apply not_elem_of_cons in Hk as [Hne Hk].
  rewrite IH by done. by apply merge_entry_other.
Qed.

Lemma merge_mapping_keeps (mapping traits : Dict) (k : string) (v : Val) :
  Accoil.hog_lookup k traits = Some v ->
  empty v = false ->
  Accoil.hog_lookup k (merge mapping traits) = Some v.
Proof.
  intros Hk Hv. unfold Accoil.merge_mapping.
  destruct (negb _); [|done]. by apply merge_loop_keeps.
Qed.

(** X15. Manual traits take precedence: a trait that is set and not empty
    before the mapping is merged keeps its value, whatever the mapping
    holds for its key. *)
Theorem merge_mapping_manual_first
    (mapping traits : Dict) (k : string) (v : Val) :
  Accoil.hog_lookup k traits = Some v ->
  empty v = false ->
  Accoil.hog_lookup k (merge mapping traits) = Some v /\
  (forall v', (k, v') ∈ mapping -> v' <> v ->
     Accoil.hog_lookup k (merge mapping traits) <> Some v').
Proof.
  intros Hk Hv.
  assert (H : Accoil.hog_lookup k (merge mapping traits) = Some v)
    by by apply merge_mapping_keeps.
  split; [done|]. intros v' _ Hne. rewrite H. congruence.
Qed.

(** X16. After the merge every trait is either a trait that was there
    before, unchanged, or an entry of the mapping whose value is not empty:
    the mapping never brings in an empty value. *)
Theorem merge_mapping_sources
    (mapping traits : Dict) (k : string) (v : Val) :
  Accoil.hog_lookup k (merge mapping traits) = Some v ->
  Accoil.hog_lookup k traits = Some v \/
  ((k, v) ∈ mapping /\ empty v = false).
Proof.
  unfold Accoil.merge_mapping. destruct (negb _); [|by left].
  revert traits. induction mapping as [|[key value] mapping IH]; intros traits H;
    [by left|].
  simpl in H. destruct (IH _ H) as [Hin|[Hin Hv]].
  - unfold Accoil.merge_entry in Hin.
    destruct (empty (Accoil.hog_get key traits) && negb (empty value)) eqn:Hc;
      [|by left].
    apply andb_prop in Hc as [_ Hval]. apply negb_true_iff in Hval.
    destruct (decide (k = key)) as [->|Hne].
    + rewrite hog_lookup_set_eq in Hin. injection Hin as <-.
      right. split; [by left|done].
    + rewrite hog_lookup_set_ne in Hin by done. by left.
  - right. split; [by right|done].
Qed.

(** X17. An entry of a mapping that is not empty, with a value that is not
    empty, fills the trait of its key when that trait is missing or empty. *)
Theorem merge_mapping_fills
    (mapping traits : Dict) (k : string) (v : Val) :
  NoDup (map fst mapping) ->
  (k, v) ∈ mapping ->
  empty (Accoil.HDict mapping) = false ->
  empty v = false ->
  empty (Accoil.hog_get k traits) = true ->
  Accoil.hog_lookup k (merge mapping traits) = Some v.
Proof.
  intros Hnd Hin Hm Hv Hslot. unfold Accoil.merge_mapping. rewrite Hm. simpl.
  clear Hm. revert traits Hslot.
  induction mapping as [|[key value] mapping IH]; intros traits Hslot.
  - by apply elem_of_nil in Hin.
  - simpl in Hnd. apply NoDup_cons in Hnd as [Hfresh Hnd].
    apply elem_of_cons in Hin as [[= <- <-]|Hin]; cbn [fold_left].
    + rewrite merge_loop_absent by done.
      unfold Accoil.merge_entry. rewrite Hslot, Hv. simpl.
      by rewrite hog_lookup_set_eq.
    + assert (Hne : k <> key).
      { intros ->. apply Hfresh. apply list_elem_of_fmap. by exists (key, v). }
      apply IH; [done..|].
      unfold Accoil.hog_get. by rewrite merge_entry_other.
Qed.

(** ** The body of the request *)

Local Set Warnings "-clear-no-such-hyp".

Ltac names_solver :=
  rewrite ?not_elem_of_cons, ?elem_of_cons, ?elem_of_nil in *; naive_solver.

(** X18. The body always carries [type], [timestamp] and [userId]; it
    carries [anonymousId] exactly when that input is not empty, [event]
    exactly for the events that are none of the five special ones (the
    track calls), [name] exactly for [$pageview] and [$screen], [traits]
    exactly for [$identify], [$set] and [$groupidentify], and [groupId]
    exactly for [$groupidentify]. *)
Theorem payload_fields (event_name : string) (inputs : Accoil.Inputs) :
  let body := body_of event_name inputs in
  Accoil.hog_lookup "type" body = Some (Accoil.HStr (Accoil.call_type event_name)) /\
  Accoil.hog_lookup "timestamp" body =
    Some (Accoil.HStr (toString (Accoil.timestamp inputs))) /\
  Accoil.hog_lookup "userId" body =
    Some (Accoil.HStr (toString (Accoil.userId inputs))) /\
  (is_Some (Accoil.hog_lookup "anonymousId" body) <->
   empty (Accoil.anonymousId inputs) = false) /\
  (is_Some (Accoil.hog_lookup "event" body) <->
   event_name ∉ ["$pageview"; "$screen"; "$identify"; "$set"; "$groupidentify"]) /\
  (is_Some (Accoil.hog_lookup "name" body) <->
   event_name = "$pageview" \/ event_name = "$screen") /\
  (is_Some (Accoil.hog_lookup "traits" body) <->
   event_name ∈ ["$identify"; "$set"; "$groupidentify"]) /\
  (is_Some (Accoil.hog_lookup "groupId" body) <-> event_name = "$groupidentify").
Proof.
  assert (Hsome : forall v : Val, is_Some (Some v) <-> True) by (intros; split; eauto).
  assert (Hnone : is_Some (@None Val) <-> False)
    by (split; [by intros [? [=]]|done]).
  cbn zeta. unfold Accoil.payload, Accoil.call_type.
  destruct (String.eqb_spec event_name "$pageview") as [->|H1].
  { destruct (empty (Accoil.anonymousId inputs)); cbn;
      rewrite ?Hsome, ?Hnone; repeat split; try done; names_solver. }
  destruct (String.eqb_spec event_name "$screen") as [->|H2].
  { destruct (empty (Accoil.anonymousId inputs)); cbn;
      rewrite ?Hsome, ?Hnone; repeat split; try done; names_solver. }
  case_bool_decide as H3.
  { destruct (empty (Accoil.anonymousId inputs)); cbn;
      rewrite ?Hsome, ?Hnone; repeat split; try done; names_solver. }
  destruct (String.eqb_spec event_name "$groupidentify") as [->|H4].
  { destruct (empty (Accoil.anonymousId inputs)); cbn;
      rewrite ?Hsome, ?Hnone; repeat split; try done; names_solver. }
  destruct (empty (Accoil.anonymousId inputs)); cbn;
    rewrite ?Hsome, ?Hnone; repeat split; try done; names_solver.
Qed.

(** ** Manual traits in the two kinds of call *)

Ltac settle_trait :=
  unfold Accoil.user_traits, Accoil.group_traits, Accoil.set_unless_empty;
  repeat match goal with
         | H : empty ?x = false |- context [empty ?x] => rewrite H
         | |- context [if negb (empty ?x) then _ else _] => destruct (empty x)
         end;
  cbn [negb Accoil.hog_set String.eqb Ascii.eqb Bool.eqb];
  (apply merge_mapping_keeps; [reflexivity | assumption]).

(** X19. In an identify call each of [email], [name], [role],
    [accountStatus], [createdAt], and in a group call each of [name],
    [createdAt], [status], [plan], [mrr], is the configured input (as a
    string, [mrr] as a float) whenever that input, and what it is turned
    into, is not empty: no entry of the traits mapping replaces it. *)
Theorem traits_manual_precedence (inputs : Accoil.Inputs) :
  (forall (source : Val) (k : string),
     (source, k) ∈ [(Accoil.email inputs, "email");
                    (Accoil.user_name inputs, "name");
                    (Accoil.role inputs, "role");
                    (Accoil.accountStatus inputs, "accountStatus");
                    (Accoil.createdAt inputs, "createdAt")] ->
     empty source = false ->
     empty (Accoil.HStr (toString source)) = false ->
     Accoil.hog_lookup k (Accoil.user_traits toString empty inputs) =
       Some (Accoil.HStr (toString source))) /\
  (forall (source : Val) (k : string),
     (source, k) ∈ [(Accoil.group_name inputs, "name");
                    (Accoil.group_createdAt inputs, "createdAt");
                    (Accoil.group_status inputs, "status");
                    (Accoil.group_plan inputs, "plan")] ->
     empty source = false ->
     empty (Accoil.HStr (toString source)) = false ->
     Accoil.hog_lookup k (Accoil.group_traits toString toFloat empty inputs) =
       Some (Accoil.HStr (toString source))) /\
  (empty (Accoil.group_mrr inputs) = false ->
   empty (toFloat (Accoil.group_mrr inputs)) = false ->
   Accoil.hog_lookup "mrr" (Accoil.group_traits toString toFloat empty inputs) =
     Some (toFloat (Accoil.group_mrr inputs))).
Proof.
  split; [|split].
  - intros source k Hin Hs Hv.
    rewrite !elem_of_cons, elem_of_nil in Hin.
    destruct Hin as [[= -> ->]|[[= -> ->]|[[= -> ->]|[[= -> ->]|[[= -> ->]|[]]]]]];
      settle_trait.
  - intros source k Hin Hs Hv.
    rewrite !elem_of_cons, elem_of_nil in Hin.
    destruct Hin as [[= -> ->]|[[= -> ->]|[[= -> ->]|[[= -> ->]|[]]]]];
      settle_trait.
  - intros Hs Hv. settle_trait.
Qed.

(** ** The URL *)

Lemma substring_4_prefix (t : string) :
  String.substring 0 4 t = "stg_" <-> exists rest, t = "stg_" +:+ rest.
Proof.
  split.
  - destruct t as [|a [|b [|c [|d rest]]]]; try done.
    simpl. intros [= -> -> -> ->]. exists rest.
    by destruct rest.
  - intros [rest ->]. simpl. by destruct rest.
Qed.

(** X20. For an API key that is a text whose first four characters are
    lowercased as ASCII text is, the request goes to the staging URL exactly
    when the key starts with [stg_] in any letter case, and to the
    production URL otherwise. *)
Theorem endpoint_staging_prefix (inputs : Accoil.Inputs) (key : string) :
  Accoil.apiKey inputs = Accoil.HStr key ->
  substring (lower (Accoil.HStr key)) 1 4 =
    Accoil.HStr (String.substring 0 4 (Accoil.lower_text key)) ->
  ((exists rest, Accoil.lower_text key = "stg_" +:+ rest) ->
   Accoil.endpoint lower substring inputs = "https://instaging.accoil.com/segment") /\
  (~ (exists rest, Accoil.lower_text key = "stg_" +:+ rest) ->
   Accoil.endpoint lower substring inputs = "https://in.accoil.com/segment").
Proof.
  intros Hkey Hsub. unfold Accoil.endpoint. rewrite Hkey, Hsub.
  cbn [Accoil.hog_eq_str].
  destruct (String.eqb_spec (String.substring 0 4 (Accoil.lower_text key)) "stg_")
    as [Heq|Hne].
  - split; [done|]. intros Hno. destruct Hno. by apply substring_4_prefix.
  - split; [|done]. intros Hyes. destruct Hne. by apply substring_4_prefix.
Qed.

End AccoilProperties.

(** ** The template's tests *)

Section AccoilTests.
Import AccoilTemplate.

(** The bodies and URLs of the snapshots of [test_template_accoil.py]. *)
Example test_track_call :
  test_body "button_click" [("event", Accoil.HStr "button_click")] =
    [("type", Accoil.HStr "track");
     ("timestamp", Accoil.HStr "2024-10-24T23:03:50.941Z");
     ("userId", Accoil.HStr "user123");
     ("event", Accoil.HStr "button_click")].
Proof. reflexivity. Qed.

Example test_page_call :
  test_body "$pageview" [("name", Accoil.HStr "Home Page")] =
    [("type", Accoil.HStr "page");
     ("timestamp", Accoil.HStr "2024-10-24T23:03:50.941Z");
     ("userId", Accoil.HStr "user123");
     ("name", Accoil.HStr "Home Page")].
Proof. reflexivity. Qed.

Example test_screen_call :
  test_body "$screen" [("name", Accoil.HStr "Settings Screen")] =
    [("type", Accoil.HStr "screen");
     ("timestamp", Accoil.HStr "2024-10-24T23:03:50.941Z");
     ("userId", Accoil.HStr "user123");
     ("name", Accoil.HStr "Settings Screen")].
Proof. reflexivity. Qed.

Example test_identify_call :
  test_body "$identify"
    [("email", Accoil.HStr "test@example.com");
     ("user_name", Accoil.HStr "Test User");
     ("role", Accoil.HStr "admin");
     ("accountStatus", Accoil.HStr "active");
     ("createdAt", Accoil.HStr "2023-01-01T00:00:00Z");
     ("user_traits_mapping",
      Accoil.HDict [("company", Accoil.HStr "Acme Corp");
                    ("plan", Accoil.HStr "premium")])] =
    [("type", Accoil.HStr "identify");
     ("timestamp", Accoil.HStr "2024-10-24T23:03:50.941Z");
     ("userId", Accoil.HStr "user123");
     ("traits",
      Accoil.HDict [("email", Accoil.HStr "test@example.com");
                    ("name", Accoil.HStr "Test User");
                    ("role", Accoil.HStr "admin");
                    ("accountStatus", Accoil.HStr "active");
                    ("createdAt", Accoil.HStr "2023-01-01T00:00:00Z");
                    ("company", Accoil.HStr "Acme Corp");
                    ("plan", Accoil.HStr "premium")])].
Proof. reflexivity. Qed.

Example test_group_call :
  test_body "$groupidentify"
    [("groupId", Accoil.HStr "group_456");
     ("group_name", Accoil.HStr "Acme Corp");
     ("group_status", Accoil.HStr "active");
     ("group_plan", Accoil.HStr "enterprise");
     ("group_mrr", Accoil.HStr "500.0");
     ("group_createdAt", Accoil.HStr "2023-01-01T00:00:00Z");
     ("group_traits_mapping",
      Accoil.HDict [("industry", Accoil.HStr "Software");
                    ("employees", Accoil.HInt 100)])] =
    [("type", Accoil.HStr "group");
     ("timestamp", Accoil.HStr "2024-10-24T23:03:50.941Z");
     ("userId", Accoil.HStr "user123");
     ("groupId", Accoil.HStr "group_456");
     ("traits",
      Accoil.HDict [("name", Accoil.HStr "Acme Corp");
                    ("createdAt", Accoil.HStr "2023-01-01T00:00:00Z");
                    ("status", Accoil.HStr "active");
                    ("plan", Accoil.HStr "enterprise");
                    ("mrr", Accoil.HFloat "500.0");
                    ("industry", Accoil.HStr "Software");
                    ("employees", Accoil.HInt 100)])].
Proof. reflexivity. Qed.

Example test_anonymous_user_with_anon_id :
  test_body "page_view"
    [("userId", Accoil.HStr "user789"); ("anonymousId", Accoil.HStr "anon123")] =
    [("type", Accoil.HStr "track");
     ("timestamp", Accoil.HStr "2024-10-24T23:03:50.941Z");
     ("userId", Accoil.HStr "user789");
     ("anonymousId", Accoil.HStr "anon123");
     ("event", Accoil.HStr "custom_event")].
Proof. reflexivity. Qed.

(** The whole call of [fetch] in [test_track_call], with the
    [Authorization] header of the snapshot. *)
Example test_track_call_fetch :
  test_fetch "button_click" [("event", Accoil.HStr "button_click")] =
    (("https://in.accoil.com/segment",
      [("method", Accoil.HStr "POST");
       ("headers",
        Accoil.HDict [("Authorization", Accoil.HStr "Basic dGVzdC1hcGkta2V5LTEyMzo=");
                      ("Content-Type", Accoil.HStr "application/json")]);
       ("body",
        Accoil.HDict [("type", Accoil.HStr "track");
                      ("timestamp", Accoil.HStr "2024-10-24T23:03:50.941Z");
                      ("userId", Accoil.HStr "user123");
                      ("event", Accoil.HStr "button_click")])]),
     Accoil.Done).
Proof. reflexivity. Qed.

Example test_staging_authorization :
  AccoilFixture.base64Encode "stg_test_api_key_456:" =
    "c3RnX3Rlc3RfYXBpX2tleV80NTY6" /\
  AccoilFixture.base64Encode "STG_TEST_API_KEY_789:" =
    "U1RHX1RFU1RfQVBJX0tFWV83ODk6".
Proof. by split. Qed.

Example test_staging_api_key :
  test_url [("apiKey", Accoil.HStr "stg_test_api_key_456");
            ("event", Accoil.HStr "test_event")] =
    "https://instaging.accoil.com/segment" /\
  test_url [("event", Accoil.HStr "button_click")] =
    "https://in.accoil.com/segment".
Proof. by split. Qed.

Example test_staging_api_key_case_insensitive :
  test_url [("apiKey", Accoil.HStr "STG_TEST_API_KEY_789");
            ("event", Accoil.HStr "test_event")] =
    "https://instaging.accoil.com/segment".
Proof. reflexivity. Qed.

(** ** [create_inputs] *)

Lemma hog_lookup_absent (k : string) (d : Dict) :
  k ∉ map fst d -> Accoil.hog_lookup k d = None.
Proof.
  induction d as [|[k' v'] d IH]; simpl; [done|].
  intros Hk. apply not_elem_of_cons in Hk as [Hne Hk].
  apply String.eqb_neq in Hne. rewrite Hne. by apply IH.
Qed.

Lemma dict_update_lookup (d kwargs : Dict) (k : string) :
  NoDup (map fst kwargs) ->
  Accoil.hog_lookup k (dict_update d kwargs) =
    match Accoil.hog_lookup k kwargs with
    | Some v => Some v
    | None => Accoil.hog_lookup k d
    end.
Proof.
  unfold dict_update. revert d.
  induction kwargs as [|[k1 v1] kwargs IH]; intros d Hnd; [done|].
  simpl in Hnd. apply NoDup_cons in Hnd as [Hfresh Hnd].
  cbn [fold_left fst snd Accoil.hog_lookup]. rewrite IH by done.
  destruct (String.eqb_spec k k1) as [->|Hne].
  - rewrite hog_lookup_absent by done. apply hog_lookup_set_eq.
  - destruct (Accoil.hog_lookup k kwargs); [done|].
    by apply hog_lookup_set_ne.
Qed.

(** X21. Whatever keywords [create_inputs] is given, each keyword's value
    is the value of its key in the result, every other key keeps its
    default, and every input the template's schema declares has a value. *)
Theorem create_inputs_lookup (kwargs : Dict) :
  NoDup (map fst kwargs) ->
  (forall k : string,
     Accoil.hog_lookup k (create_inputs kwargs) =
       match Accoil.hog_lookup k kwargs with
       | Some v => Some v
       | None => Accoil.hog_lookup k default_inputs
       end) /\
  (forall input : InputSchema,
     input ∈ inputs_schema ->
     is_Some (Accoil.hog_lookup (key input) (create_inputs kwargs))).
Proof.
  intros Hnd.
  assert (Hlookup : forall k : string,
    Accoil.hog_lookup k (create_inputs kwargs) =
      match Accoil.hog_lookup k kwargs with
      | Some v => Some v
      | None => Accoil.hog_lookup k default_inputs
      end) by (intros k; by apply dict_update_lookup).
  split; [done|].
  intros input Hin. rewrite Hlookup.
  destruct (Accoil.hog_lookup (key input) kwargs); [eauto|].
  unfold inputs_schema in Hin.
  repeat (apply elem_of_cons in Hin as [->|Hin]; [cbn; eauto|]).
  by apply elem_of_nil in Hin.
Qed.

End AccoilTests.

(** * The claims on the instance *)

Local Open Scope list_scope.

(** C1 (amended) on the instance: a cached entry is returned though the
    team's subscription says otherwise; a miss for team 7 is computed,
    cached and then hit; an unresolved team gets [false] and no entry; three
    checks in a row call the subscription service once; the key of team 7
    is [team/7/feature/api_queries_concurrency]; two checks that overlap
    call the subscription service at most twice. *)
Lemma check_team_api_queries_concurrency_memoised_witness :
  let cached : Fixture.FWorld :=
    mkWorld {[cache_key_of Fixture.feature 7 := false]} ∅ [] [] [] in
  Fixture.check_with Fixture.view cached = (Returned false, cached) /\
  Fixture.check_with Fixture.view Fixture.empty_world =
    (Returned true,
     mkWorld {[cache_key_of Fixture.feature 7 := true]} ∅ [7] [] []) /\
  Fixture.check_with Fixture.view_unresolved Fixture.empty_world =
    (Returned false, Fixture.empty_world) /\
  (calls_for 7
     (check_each Fixture.feature Fixture.subscribed
        [Fixture.view; Fixture.view; Fixture.view] Fixture.empty_world) <= 1)%nat /\
  cache_key_of Fixture.feature 7 = "team/7/feature/api_queries_concurrency" /\
  (calls_for 7
     (snd (run_schedule Fixture.feature Fixture.subscribed
             [0; 1; 0; 1; 0; 1]%nat
             [(Fixture.view, Started); (Fixture.view, Started)]
             Fixture.empty_world)) <= 2)%nat.
Proof.
  intros cached.
  destruct (check_team_api_queries_concurrency_memoised (User := string)
              (ExecutionMode := Fixture.Mode)
              Fixture.feature Fixture.subscribed Fixture.view cached)
    as (Hhit & _).
  destruct (check_team_api_queries_concurrency_memoised (User := string)
              (ExecutionMode := Fixture.Mode)
              Fixture.feature Fixture.subscribed Fixture.view Fixture.empty_world)
    as (_ & Hmiss & _ & _ & Honce & Hkey & _ & _ & Hoverlap).
  destruct (check_team_api_queries_concurrency_memoised (User := string)
              (ExecutionMode := Fixture.Mode)
              Fixture.feature Fixture.subscribed Fixture.view_unresolved
              Fixture.empty_world)
    as (_ & _ & Hnone & _).
  split; [exact (Hhit false eq_refl)|].
  split; [exact (proj1 (Hmiss (mkTeam [Fixture.feature]) eq_refl eq_refl))|].
  split; [exact (proj1 (Hnone eq_refl eq_refl))|].
  split; [exact (Honce [Fixture.view; Fixture.view; Fixture.view] 7)|].
  split; [exact Hkey|].
  exact (Hoverlap [0; 1; 0; 1; 0; 1]%nat
           [(Fixture.view, Started); (Fixture.view, Started)] 7).
Defined.

(** C4 on the instance: a request with [refresh = "force_async"]. *)
Lemma run_rejects_async_modes_witness :
  let d := Fixture.hogql None (Some "force_async") in
  let engine := Fixture.engine_returns (ResultDict []) in
  Fixture.ForceAsync ∈ Fixture.async_modes /\
  fst (Fixture.run_with engine d Fixture.empty_world) =
    Raised (ValidationError "only sync modes are supported (refresh param)" PyNone) /\
  dispatched (snd (Fixture.run_with engine d Fixture.empty_world)) = [].
Proof.
  intros d engine.
  assert (Hm : Fixture.ForceAsync ∈ Fixture.async_modes) by constructor.
  split; [exact Hm|].
  exact (run_rejects_async_modes Fixture.async_modes Fixture.parse
           Fixture.resolve engine Fixture.dump Fixture.view (Fixture.post d) d
           Fixture.empty_world (HogQLQuery "select 1") None Fixture.ForceAsync
           eq_refl eq_refl eq_refl Hm).
Defined.

(** C10 on the instance: the rejected request leaves [abc123] in the tags. *)
Lemma run_async_tags_before_rejecting_witness :
  let d := Fixture.hogql (Some "abc123") (Some "force_async") in
  let engine := Fixture.engine_returns (ResultDict []) in
  query_tags (snd (Fixture.run_with engine d Fixture.empty_world)) =
    {["client_query_id" := "abc123"]} /\
  (query_tags (snd (Fixture.run_with engine d Fixture.empty_world)))
    !! "client_query_id" = Some "abc123" /\
  fst (Fixture.run_with engine d Fixture.empty_world) =
    Raised (ValidationError "only sync modes are supported (refresh param)" PyNone) /\
  dispatched (snd (Fixture.run_with engine d Fixture.empty_world)) = [].
Proof.
  intros d engine.
  assert (Hm : Fixture.ForceAsync ∈ Fixture.async_modes) by constructor.
  assert (Hne : "abc123" <> "") by discriminate.
  exact (run_async_tags_before_rejecting Fixture.async_modes Fixture.parse
           Fixture.resolve engine Fixture.dump Fixture.view (Fixture.post d) d
           Fixture.empty_world (HogQLQuery "select 1") "abc123" Fixture.ForceAsync
           eq_refl eq_refl eq_refl Hm Hne).
Defined.

(** C3 on the instance: [{query_status: {complete: false}, rows: []}] is
    answered with 202, [{rows: [1, 2, 3]}] with 200, each with that body. *)
Lemma run_response_status_witness :
  let incomplete : PyMapping :=
    [("query_status", PyDict [("complete", PyBool false)]); ("rows", PyList [])] in
  let rows : PyMapping := [("rows", PyList [PyInt 1; PyInt 2; PyInt 3])] in
  (Fixture.ForceBlocking ∉ Fixture.async_modes) /\
  fst (Fixture.run_with (Fixture.engine_returns (ResultDict incomplete))
         (Fixture.hogql None None) Fixture.empty_world) =
    Returned (mkResponse incomplete 202) /\
  fst (Fixture.run_with (Fixture.engine_returns (ResultModel rows))
         (Fixture.hogql None None) Fixture.empty_world) =
    Returned (mkResponse rows 200).
Proof.
  intros incomplete rows.
  assert (Hm : Fixture.ForceBlocking ∉ Fixture.async_modes).
  { intros H. by apply list_elem_of_singleton in H. }
  split; [exact Hm|]. split.
  - refine (proj1 (run_response_status Fixture.async_modes Fixture.parse
             Fixture.resolve (Fixture.engine_returns (ResultDict incomplete))
             Fixture.dump Fixture.view (Fixture.post (Fixture.hogql None None))
             (Fixture.hogql None None) Fixture.empty_world
             (HogQLQuery "select 1") None Fixture.ForceBlocking
             (ResultDict incomplete) eq_refl eq_refl eq_refl Hm eq_refl)
           [("complete", PyBool false)] eq_refl _ eq_refl).
    discriminate.
  - exact (proj1 (proj2 (run_response_status Fixture.async_modes Fixture.parse
             Fixture.resolve (Fixture.engine_returns (ResultModel rows))
             Fixture.dump Fixture.view (Fixture.post (Fixture.hogql None None))
             (Fixture.hogql None None) Fixture.empty_world
             (HogQLQuery "select 1") None Fixture.ForceBlocking
             (ResultModel rows) eq_refl eq_refl eq_refl Hm eq_refl)) eq_refl).
Defined.

(** C5 on the instance: the limiter's [team X exceeded limit] comes out as
    [Throttled] with that message, and nothing is reported. *)
Lemma run_concurrency_limit_throttled_witness :
  let d := Fixture.hogql None None in
  let engine := Fixture.engine_raises (Exc Fixture.limit_exceeded) in
  run_try Fixture.async_modes Fixture.resolve engine Fixture.dump
    Fixture.view (Fixture.post d) d Fixture.empty_world =
    (Raised (Exc Fixture.limit_exceeded), Fixture.after_call None) /\
  Fixture.run_with engine d Fixture.empty_world =
    (Raised (Throttled "team X exceeded limit"), Fixture.after_call None) /\
  captured (snd (Fixture.run_with engine d Fixture.empty_world)) = [].
Proof.
  intros d engine.
  assert (Hbody :
    run_try Fixture.async_modes Fixture.resolve engine Fixture.dump
      Fixture.view (Fixture.post d) d Fixture.empty_world =
    (Raised (Exc Fixture.limit_exceeded), Fixture.after_call None))
    by reflexivity.
  split; [exact Hbody|].
  destruct (run_concurrency_limit_throttled Fixture.async_modes Fixture.parse
              Fixture.resolve engine Fixture.dump Fixture.view (Fixture.post d) d
              Fixture.empty_world (Fixture.after_call None) Fixture.limit_exceeded
              eq_refl eq_refl Hbody eq_refl) as (Hrun & _ & _ & Hcap).
  split; [exact Hrun | exact Hcap].
Defined.

(** C6 on the instance: an engine-translation error with a [code_name]
    keeps its message and code; a resolution error keeps its message
    only. *)
Lemma run_engine_errors_validation_witness :
  let d := Fixture.hogql None None in
  Fixture.run_with (Fixture.engine_raises (Exc Fixture.query_error)) d
    Fixture.empty_world =
    (Raised (ValidationError "Illegal type of argument"
               (PyStr "illegal_type_of_argument")),
     Fixture.after_call None) /\
  Fixture.run_with (Fixture.engine_raises (Exc Fixture.resolution_error)) d
    Fixture.empty_world =
    (Raised (ValidationError "Unable to resolve field: x" PyNone),
     Fixture.after_call None).
Proof.
  intros d. split.
  - refine (proj1 (proj1 (run_engine_errors_validation Fixture.async_modes
             Fixture.parse Fixture.resolve
             (Fixture.engine_raises (Exc Fixture.query_error)) Fixture.dump
             Fixture.view (Fixture.post d) d Fixture.empty_world
             (Fixture.after_call None) Fixture.query_error
             eq_refl eq_refl eq_refl) _) _ eq_refl).
    right. by left.
  - exact (proj2 (run_engine_errors_validation Fixture.async_modes
             Fixture.parse Fixture.resolve
             (Fixture.engine_raises (Exc Fixture.resolution_error)) Fixture.dump
             Fixture.view (Fixture.post d) d Fixture.empty_world
             (Fixture.after_call None) Fixture.resolution_error
             eq_refl eq_refl eq_refl) eq_refl).
Defined.

(** C2 (amended) on the instance: ClickHouse's message about a missing
    column is turned into a [ValidationError] ending with the beta note and
    nothing is reported; an error with another message is reported once and
    re-raised. *)
Lemma run_catch_all_column_error_witness :
  let d := Fixture.hogql None None in
  let missing :=
    Fixture.column_error "Code: 16. There's no column foo in table events. (X)" in
  let other := Fixture.column_error "Code: 241. Memory limit exceeded" in
  Fixture.run_with (Fixture.engine_raises missing) d Fixture.empty_world =
    (Raised (ValidationError
               ("There's no column foo in table" +:+ beta_note) PyNone),
     Fixture.after_call None) /\
  captured (Fixture.after_call None) = [] /\
  Fixture.run_with (Fixture.engine_raises other) d Fixture.empty_world =
    (Raised other,
     mkWorld ∅ ∅ [] [Fixture.call_of None] [other]).
Proof.
  intros d missing other.
  assert (Hbody : forall e : PyExc,
    run_try Fixture.async_modes Fixture.resolve (Fixture.engine_raises e)
      Fixture.dump Fixture.view (Fixture.post d) d Fixture.empty_world =
    (Raised e, Fixture.after_call None)) by reflexivity.
  destruct (run_catch_all_column_error Fixture.async_modes Fixture.parse
              Fixture.resolve (Fixture.engine_raises missing) Fixture.dump
              Fixture.view (Fixture.post d) d Fixture.empty_world
              (Fixture.after_call None) missing
              eq_refl eq_refl (Hbody missing) eq_refl) as (Hmatch & _).
  destruct (Hmatch "Code: 16. There's no column foo in table events. (X)" eq_refl)
    as (g & mid & Hg & _ & Hrun & Hcap).
  { exists "Code: 16. ", " foo ", " events. (X)". by split. }
  assert (g = "There's no column foo in table") as -> by (vm_compute in Hg; congruence).
  split; [exact Hrun|]. split; [exact Hcap|].
  destruct (run_catch_all_column_error Fixture.async_modes Fixture.parse
              Fixture.resolve (Fixture.engine_raises other) Fixture.dump
              Fixture.view (Fixture.post d) d Fixture.empty_world
              (Fixture.after_call None) other
              eq_refl eq_refl (Hbody other) eq_refl) as (_ & Hother).
  refine (proj1 (Hother (or_intror (ex_intro _ "Code: 241. Memory limit exceeded"
                           (conj eq_refl _))))).
  intros Hc. apply column_search_iff in Hc. vm_compute in Hc.
  by destruct Hc as [? [=]].
Defined.

(** C9 on the instance: an exception whose text is the column error but
    which has no [message], a [None] one or an empty one, is reported and
    re-raised. *)
Lemma run_catch_all_without_message_witness :
  let d := Fixture.hogql None None in
  let text := "There's no column foo in table events" in
  let absent := Fixture.bare_error text in
  let none := Exc (mkExc (OtherException "Exception") text [("message", PyNone)]) in
  let empty := Exc (mkExc (OtherException "Exception") text [("message", PyStr "")]) in
  is_Some (re_search column_pattern text) /\
  Fixture.run_with (Fixture.engine_raises absent) d Fixture.empty_world =
    (Raised absent, mkWorld ∅ ∅ [] [Fixture.call_of None] [absent]) /\
  Fixture.run_with (Fixture.engine_raises none) d Fixture.empty_world =
    (Raised none, mkWorld ∅ ∅ [] [Fixture.call_of None] [none]) /\
  Fixture.run_with (Fixture.engine_raises empty) d Fixture.empty_world =
    (Raised empty, mkWorld ∅ ∅ [] [Fixture.call_of None] [empty]).
Proof.
  intros d text absent none empty.
  assert (Hbody : forall e : PyExc,
    run_try Fixture.async_modes Fixture.resolve (Fixture.engine_raises e)
      Fixture.dump Fixture.view (Fixture.post d) d Fixture.empty_world =
    (Raised e, Fixture.after_call None)) by reflexivity.
  split; [vm_compute; eauto|].
  split; [|split].
  - exact (proj2 (run_catch_all_without_message Fixture.async_modes Fixture.parse
             Fixture.resolve (Fixture.engine_raises absent) Fixture.dump
             Fixture.view (Fixture.post d) d Fixture.empty_world
             (Fixture.after_call None) absent
             eq_refl eq_refl (Hbody absent) eq_refl eq_refl)).
  - exact (proj2 (run_catch_all_without_message Fixture.async_modes Fixture.parse
             Fixture.resolve (Fixture.engine_raises none) Fixture.dump
             Fixture.view (Fixture.post d) d Fixture.empty_world
             (Fixture.after_call None) none
             eq_refl eq_refl (Hbody none) eq_refl eq_refl)).
  - exact (proj2 (run_catch_all_without_message Fixture.async_modes Fixture.parse
             Fixture.resolve (Fixture.engine_raises empty) Fixture.dump
             Fixture.view (Fixture.post d) d Fixture.empty_world
             (Fixture.after_call None) empty
             eq_refl eq_refl (Hbody empty) eq_refl eq_refl)).
Defined.

(** C7 (amended) on the instance: with [client_query_id = "abc123"] the
    engine is called under tags that carry it; with none, under the empty
    tags, which the request leaves empty. *)
Lemma tag_client_query_id_attaches_witness :
  let engine := Fixture.engine_returns (ResultDict []) in
  dispatched (snd (Fixture.run_with engine (Fixture.hogql (Some "abc123") None)
                     Fixture.empty_world)) = [Fixture.call_of (Some "abc123")] /\
  d_tags (Fixture.call_of (Some "abc123")) !! "client_query_id" = Some "abc123" /\
  dispatched (snd (Fixture.run_with engine (Fixture.hogql None None)
                     Fixture.empty_world)) = [Fixture.call_of None] /\
  query_tags (snd (Fixture.run_with engine (Fixture.hogql None None)
                     Fixture.empty_world)) = ∅.
Proof.
  intros engine.
  assert (Hm : Fixture.ForceBlocking ∉ Fixture.async_modes).
  { intros H. by apply list_elem_of_singleton in H. }
  destruct (tag_client_query_id_attaches Fixture.async_modes Fixture.parse
              Fixture.resolve engine Fixture.dump Fixture.view
              (Fixture.post (Fixture.hogql (Some "abc123") None))
              (Fixture.hogql (Some "abc123") None) Fixture.empty_world
              (HogQLQuery "select 1") (Some "abc123") Fixture.ForceBlocking)
    as (_ & _ & Hsome).
  destruct (Hsome eq_refl eq_refl eq_refl Hm) as (Hd1 & Htag & _).
  destruct (tag_client_query_id_attaches Fixture.async_modes Fixture.parse
              Fixture.resolve engine Fixture.dump Fixture.view
              (Fixture.post (Fixture.hogql None None))
              (Fixture.hogql None None) Fixture.empty_world
              (HogQLQuery "select 1") None Fixture.ForceBlocking)
    as (_ & _ & Hnone).
  destruct (Hnone eq_refl eq_refl eq_refl Hm) as (Hd2 & _ & Hsame).
  split; [exact Hd1|].
  split; [exact (proj1 (Htag "abc123" eq_refl))|].
  split; [exact Hd2|].
  exact (proj2 (Hsame eq_refl)).
Defined.

(** C8 (amended) on the instance: an [EventsQuery] is refused and the
    world stays as it was. *)
Lemma run_rejects_other_variants_witness :
  let engine := Fixture.engine_returns (ResultDict []) in
  Fixture.run_with engine Fixture.events_query Fixture.empty_world =
    (Raised (ValidationError "This endpoint only supports HogQLQuery" PyNone),
     Fixture.empty_world).
Proof.
  intros engine.
  exact (proj1 (run_rejects_other_variants Fixture.async_modes Fixture.parse
                  Fixture.resolve engine Fixture.dump Fixture.view
                  (Fixture.post Fixture.events_query) Fixture.events_query
                  Fixture.empty_world eq_refl eq_refl)).
Defined.

(** * Where the code departs from the wording *)

(** C1 as worded fails in its bound: two checks of team 7 that overlap
    (each reads the cache before the other has written it) both miss, and
    the subscription service is called twice during one cache lifetime. *)
Lemma check_overlapping_counterexample :
  let outcome :=
    run_schedule Fixture.feature Fixture.subscribed [0; 1; 0; 1; 0; 1]%nat
      [(Fixture.view, Started); (Fixture.view, Started)] Fixture.empty_world in
  fst outcome =
    [(Fixture.view, Finished true); (Fixture.view, Finished true)] /\
  feature_calls (snd outcome) = [7; 7] /\
  calls_for 7 (snd outcome) = 2%nat /\
  ~ (calls_for 7 (snd outcome) <= 1)%nat.
Proof.
  intros outcome.
  assert (Hp : fst outcome =
    [(Fixture.view, Finished true); (Fixture.view, Finished true)]) by reflexivity.
  assert (Hf : feature_calls (snd outcome) = [7; 7]) by reflexivity.
  assert (Hc : calls_for 7 (snd outcome) = 2%nat) by reflexivity.
  rewrite Hc. repeat split; [done..|lia].
Qed.

(** C2 as worded fails: the message [no such column foo in table events]
    matches the pattern as the specification words it, yet [run] re-raises
    the error as it is, not a [ValidationError], and reports it to
    [capture_exception] once. *)
Lemma run_spec_column_pattern_counterexample :
  let d := Fixture.hogql None None in
  let message := "no such column foo in table events" in
  let e := Fixture.column_error message in
  let outcome := Fixture.run_with (Fixture.engine_raises e) d Fixture.empty_world in
  re_search spec_column_pattern message = Some "no such column foo in table" /\
  re_search column_pattern message = None /\
  reaches_catch_all e = true /\
  outcome = (Raised e, mkWorld ∅ ∅ [] [Fixture.call_of None] [e]) /\
  fst outcome <>
    Raised (ValidationError ("no such column foo in table" +:+ beta_note) PyNone) /\
  captured (snd outcome) = [e] /\
  captured (snd outcome) <> [].
Proof.
  intros d message e outcome.
  assert (Hrun : outcome = (Raised e, mkWorld ∅ ∅ [] [Fixture.call_of None] [e]))
    by reflexivity.
  rewrite Hrun. by repeat split.
Qed.

(** C7 as worded fails: for the empty string [_tag_client_query_id] does
    tag, so the ambient tags change; so do they over a whole request whose
    resolved id is the empty string. *)
Lemma tag_client_query_id_empty_counterexample :
  let tagged :=
    snd (@_tag_client_query_id (list string) string Fixture.Mode (Some "")
           Fixture.empty_world) in
  let served :=
    snd (Fixture.run_with (Fixture.engine_returns (ResultDict []))
           (Fixture.hogql (Some "") None) Fixture.empty_world) in
  query_tags tagged = {["client_query_id" := ""]} /\
  query_tags tagged <> query_tags Fixture.empty_world /\
  query_tags served = {["client_query_id" := ""]} /\
  query_tags served <> query_tags Fixture.empty_world.
Proof.
  intros tagged served.
  assert (Ht : query_tags tagged = {["client_query_id" := ""]}) by reflexivity.
  assert (Hs : query_tags served = {["client_query_id" := ""]}) by reflexivity.
  rewrite Ht, Hs.
  assert (Hne : ({["client_query_id" := ""]} : gmap string string)
                <> query_tags Fixture.empty_world).
  { intros H. apply (f_equal (lookup "client_query_id")) in H.
    by rewrite lookup_singleton_eq in H. }
  by repeat split.
Qed.

(** C8 as worded fails in the message only: what [run] raises for an
    unsupported variant starts with a capital letter, so it is not the
    message of the specification. *)
Lemma run_spec_variant_message_counterexample :
  let outcome :=
    fst (Fixture.run_with (Fixture.engine_returns (ResultDict []))
           Fixture.events_query Fixture.empty_world) in
  outcome = Raised (ValidationError "This endpoint only supports HogQLQuery" PyNone) /\
  outcome <> Raised (ValidationError spec_variant_message PyNone).
Proof.
  intros outcome.
  assert (Ho : outcome =
    Raised (ValidationError "This endpoint only supports HogQLQuery" PyNone))
    by reflexivity.
  rewrite Ho. split; [done|]. unfold spec_variant_message. discriminate.
Qed.

(** * Further properties on the instance *)

(** X3 on the instance: the rejection of [force_async] is reported. *)
Lemma run_async_rejection_is_reported_witness :
  let d := Fixture.hogql None (Some "force_async") in
  captured (snd (Fixture.run_with (Fixture.engine_returns (ResultDict [])) d
                   Fixture.empty_world)) =
    [ValidationError "only sync modes are supported (refresh param)" PyNone].
Proof.
  intros d.
  assert (Hm : Fixture.ForceAsync ∈ Fixture.async_modes) by constructor.
  exact (run_async_rejection_is_reported Fixture.async_modes Fixture.parse
           Fixture.resolve (Fixture.engine_returns (ResultDict [])) Fixture.dump
           Fixture.view (Fixture.post d) d Fixture.empty_world
           (HogQLQuery "select 1") None Fixture.ForceAsync
           eq_refl eq_refl eq_refl Hm).
Defined.

(** X4 on the instance: an engine-translation error comes out as a
    [ValidationError]. *)
Lemma run_raises_normalised_witness :
  let d := Fixture.hogql None None in
  let e := ValidationError "Illegal type of argument"
             (PyStr "illegal_type_of_argument") in
  fst (Fixture.run_with (Fixture.engine_raises (Exc Fixture.query_error)) d
         Fixture.empty_world) = Raised e /\
  ((exists detail code, e = ValidationError detail code) \/
   (exists detail, e = Throttled detail) \/
   (exists o name, e = Exc o /\ exc_class o = OtherException name)).
Proof.
  intros d e.
  assert (Hrun :
    fst (Fixture.run_with (Fixture.engine_raises (Exc Fixture.query_error)) d
           Fixture.empty_world) = Raised e) by reflexivity.
  split; [exact Hrun|].
  exact (run_raises_normalised Fixture.async_modes Fixture.parse
           Fixture.resolve (Fixture.engine_raises (Exc Fixture.query_error))
           Fixture.dump Fixture.view (Fixture.post d) d Fixture.empty_world e
           eq_refl Hrun).
Defined.

(** X5 on the instance: [{query_status: "running"}] cannot be answered. *)
Lemma run_query_status_not_mapping_witness :
  let d := Fixture.hogql None None in
  let r : PyMapping := [("query_status", PyStr "running")] in
  let outcome :=
    Fixture.run_with (Fixture.engine_returns (ResultDict r)) d
      Fixture.empty_world in
  fst outcome = Raised (AttributeError (PyStr "running") "get") /\
  dispatched (snd outcome) = [Fixture.call_of None] /\
  captured (snd outcome) = [AttributeError (PyStr "running") "get"].
Proof.
  intros d r outcome.
  assert (Hm : Fixture.ForceBlocking ∉ Fixture.async_modes).
  { intros H. by apply list_elem_of_singleton in H. }
  assert (Hnd : forall qs, PyStr "running" <> PyDict qs) by discriminate.
  exact (run_query_status_not_mapping Fixture.async_modes Fixture.parse
           Fixture.resolve (Fixture.engine_returns (ResultDict r)) Fixture.dump
           Fixture.view (Fixture.post d) d Fixture.empty_world
           (HogQLQuery "select 1") None Fixture.ForceBlocking (ResultDict r)
           (PyStr "running") eq_refl eq_refl eq_refl Hm eq_refl eq_refl eq_refl
           Hnd).
Defined.

(** X6 on the instance: an error whose [message] is [5]. *)
Lemma run_catch_all_message_not_text_witness :
  let d := Fixture.hogql None None in
  let outcome :=
    Fixture.run_with (Fixture.engine_raises Scenario.numbered_error) d
      Fixture.empty_world in
  (exists text, outcome = (Raised (TypeError text), Fixture.after_call None)) /\
  captured (snd outcome) = [].
Proof.
  intros d outcome.
  assert (Hbody :
    run_try Fixture.async_modes Fixture.resolve
      (Fixture.engine_raises Scenario.numbered_error) Fixture.dump
      Fixture.view (Fixture.post d) d Fixture.empty_world =
    (Raised Scenario.numbered_error, Fixture.after_call None)) by reflexivity.
  assert (Hns : forall m, getattr Scenario.numbered_error "message" PyNone <> PyStr m)
    by discriminate.
  exact (run_catch_all_message_not_text Fixture.async_modes Fixture.parse
           Fixture.resolve (Fixture.engine_raises Scenario.numbered_error)
           Fixture.dump Fixture.view (Fixture.post d) d Fixture.empty_world
           (Fixture.after_call None) Scenario.numbered_error
           eq_refl eq_refl Hbody eq_refl eq_refl Hns).
Defined.

(** X7 on the instance: the answer to an incomplete query is a 202 whose
    body says so, after one dispatch and no report. *)
Lemma run_response_inversion_witness :
  let d := Fixture.hogql None None in
  let incomplete : PyMapping :=
    [("query_status", PyDict [("complete", PyBool false)]); ("rows", PyList [])] in
  let engine := Fixture.engine_returns (ResultDict incomplete) in
  let resp := mkResponse incomplete 202 in
  fst (Fixture.run_with engine d Fixture.empty_world) = Returned resp /\
  exists (parsed : QueryRequest) (q : QueryNode) (cid : option string)
         (mode : Fixture.Mode) (r : QueryResult),
    Fixture.parse d = Returned parsed /\
    Fixture.resolve parsed (team Fixture.view) (client_query_id parsed) "user"
      = Returned (q, cid, mode) /\
    (mode ∉ Fixture.async_modes) /\
    let c := dispatch_call Fixture.view (Fixture.post d) q cid mode
               (snd (@_tag_client_query_id (list string) string Fixture.Mode cid
                       Fixture.empty_world)) in
    engine c = Returned r /\
    body resp = normalize Fixture.dump r /\
    dispatched (snd (Fixture.run_with engine d Fixture.empty_world)) = [] ++ [c] /\
    captured (snd (Fixture.run_with engine d Fixture.empty_world)) = [] /\
    (status resp = 200 \/ status resp = 202) /\
    (status resp = 202 <->
     exists qs, dict_lookup "query_status" (body resp) = Some (PyDict qs) /\
                qs <> [] /\ dict_lookup "complete" qs = Some (PyBool false)).
Proof.
  intros d incomplete engine resp.
  assert (Hrun : fst (Fixture.run_with engine d Fixture.empty_world) = Returned resp)
    by reflexivity.
  split; [exact Hrun|].
  exact (run_response_inversion Fixture.async_modes Fixture.parse
           Fixture.resolve engine Fixture.dump Fixture.view (Fixture.post d)
           Fixture.empty_world resp Hrun).
Defined.

(** X8 on the instance: the limiter's error raised by the resolver is
    throttled, and the world stays as it was. *)
Lemma run_resolver_failure_witness :
  let d := Fixture.hogql (Some "abc123") None in
  let outcome :=
    run Fixture.async_modes Fixture.parse
      (Scenario.resolve_raises (Exc Fixture.limit_exceeded))
      (Fixture.engine_returns (ResultDict [])) Fixture.dump Fixture.view
      (Fixture.post d) Fixture.empty_world in
  outcome = (Raised (Throttled "team X exceeded limit"), Fixture.empty_world) /\
  query_tags (snd outcome) = ∅ /\
  dispatched (snd outcome) = [].
Proof.
  intros d outcome.
  destruct (run_resolver_failure Fixture.async_modes Fixture.parse
              (Scenario.resolve_raises (Exc Fixture.limit_exceeded))
              (Fixture.engine_returns (ResultDict [])) Fixture.dump Fixture.view
              (Fixture.post d) d Fixture.empty_world (Exc Fixture.limit_exceeded)
              eq_refl eq_refl eq_refl) as (_ & Ht & Hd & Hthrottled).
  split; [exact (Hthrottled Fixture.limit_exceeded eq_refl eq_refl)|].
  split; [exact Ht | exact Hd].
Defined.

(** X9 on the instance: a request under a personal API key is dispatched
    as a query-service call, with its id. *)
Lemma run_dispatch_arguments_witness :
  let d := Fixture.hogql (Some "abc123") None in
  let outcome :=
    Fixture.run_with (Fixture.engine_returns (ResultDict [])) d
      Scenario.api_key_world in
  exists c,
    dispatched (snd outcome) = [] ++ [c] /\
    d_team c = team Fixture.view /\ d_query c = HogQLQuery "select 1" /\
    d_execution_mode c = Fixture.ForceBlocking /\
    d_query_id c = Some "abc123" /\ d_user c = "user" /\
    d_is_query_service c = true.
Proof.
  intros d outcome.
  assert (Hm : Fixture.ForceBlocking ∉ Fixture.async_modes).
  { intros H. by apply list_elem_of_singleton in H. }
  exact (run_dispatch_arguments Fixture.async_modes Fixture.parse
           Fixture.resolve (Fixture.engine_returns (ResultDict [])) Fixture.dump
           Fixture.view (Fixture.post d) d Scenario.api_key_world
           (HogQLQuery "select 1") (Some "abc123") Fixture.ForceBlocking
           eq_refl eq_refl eq_refl Hm).
Defined.


(** X11 on the instance: the check of team 7 leaves team 8 alone. *)
Lemma check_other_tenant_untouched_witness :
  let after := snd (Fixture.check_with Fixture.view Fixture.empty_world) in
  cache after !! cache_key_of Fixture.feature 8 = None /\
  calls_for 8 after = 0%nat.
Proof.
  intros after.
  assert (Hne : team_id Fixture.view_unresolved <> team_id Fixture.view)
    by discriminate.
  exact (check_other_tenant_untouched (User := string)
           (ExecutionMode := Fixture.Mode) Fixture.feature Fixture.subscribed
           Fixture.view Fixture.view_unresolved Fixture.empty_world Hne).
Defined.

(** X12 on the instance: the entry of team 7 comes from its organization. *)
Lemma check_each_entry_provenance_witness :
  let views := [Fixture.view_unresolved; Fixture.view] in
  exists (self : @ViewSet (list string)) (t : Fixture.FTeam),
    self ∈ views /\ team_id self = 7 /\ team self = Some t /\
    true = Fixture.subscribed (organization t) Fixture.feature.
Proof.
  intros views.
  exact (check_each_entry_provenance (User := string)
           (ExecutionMode := Fixture.Mode) Fixture.feature Fixture.subscribed
           views Fixture.empty_world 7 true eq_refl eq_refl).
Defined.

(** X13 on the instance: two checks for a team that does not resolve. *)
Lemma check_each_unresolved_witness :
  check_each Fixture.feature Fixture.subscribed
    [Fixture.view_unresolved; Fixture.view_unresolved] Fixture.empty_world =
  Fixture.empty_world.
Proof.
  assert (Hall : Forall (fun self : @ViewSet (list string) => team self = None)
                   [Fixture.view_unresolved; Fixture.view_unresolved])
    by (repeat constructor).
  exact (check_each_unresolved (User := string) (ExecutionMode := Fixture.Mode)
           Fixture.feature Fixture.subscribed _ Fixture.empty_world Hall).
Defined.

(** X14 on the instance: of a message with a stack trace, only the first
    line's match is exposed. *)
Lemma handle_column_message_one_line_witness :
  let e := Fixture.column_error Scenario.traced_message in
  let detail := "There's no column foo in table" +:+ beta_note in
  @handle_column_ch_error (list string) string Fixture.Mode e Fixture.empty_world =
    (Raised (ValidationError detail PyNone), Fixture.empty_world) /\
  one_line detail = true /\
  exists m pre mid post : string,
    getattr e "message" PyNone = PyStr m /\
    m = pre +:+ "There's no column" +:+ mid +:+ "in table" +:+ post /\
    detail = "There's no column" +:+ mid +:+ "in table" +:+ beta_note.
Proof.
  intros e detail.
  assert (Hh :
    @handle_column_ch_error (list string) string Fixture.Mode e
      Fixture.empty_world =
    (Raised (ValidationError detail PyNone), Fixture.empty_world)) by reflexivity.
  split; [exact Hh|].
  exact (proj2 (proj2 (handle_column_message_one_line e Fixture.empty_world
                         Fixture.empty_world detail PyNone Hh))).
Defined.

(** * The Accoil destination on the instance *)

(** X15 on the instance: the configured email stays, though the mapping
    has another one. *)
Lemma merge_mapping_manual_first_witness :
  let traits : list (string * AccoilFixture.Val) :=
    [("email", Accoil.HStr "test@example.com")] in
  let merged :=
    Accoil.merge_mapping AccoilFixture.empty
      (Accoil.user_traits_mapping AccoilFixture.inputs) traits in
  Accoil.hog_lookup "email" merged = Some (Accoil.HStr "test@example.com") /\
  Accoil.hog_lookup "email" merged <> Some (Accoil.HStr "other@example.com").
Proof.
  intros traits merged.
  destruct (merge_mapping_manual_first AccoilFixture.empty
              (Accoil.user_traits_mapping AccoilFixture.inputs) traits "email"
              (Accoil.HStr "test@example.com") eq_refl eq_refl) as [Hkept Hnot].
  split; [exact Hkept|].
  apply Hnot; [|discriminate].
  right. by left.
Defined.

(** X16 on the instance: [company] comes from the mapping, with a value
    that is not empty. *)
Lemma merge_mapping_sources_witness :
  let mapping := Accoil.user_traits_mapping AccoilFixture.inputs in
  let traits : list (string * AccoilFixture.Val) :=
    [("email", Accoil.HStr "test@example.com")] in
  Accoil.hog_lookup "company" (Accoil.merge_mapping AccoilFixture.empty mapping traits)
    = Some (Accoil.HStr "Acme Corp") /\
  (Accoil.hog_lookup "company" traits = Some (Accoil.HStr "Acme Corp") \/
   (("company", Accoil.HStr "Acme Corp") ∈ mapping /\
    AccoilFixture.empty (Accoil.HStr "Acme Corp") = false)).
Proof.
  intros mapping traits.
  assert (H : Accoil.hog_lookup "company"
                (Accoil.merge_mapping AccoilFixture.empty mapping traits)
              = Some (Accoil.HStr "Acme Corp")) by reflexivity.
  split; [exact H|].
  exact (merge_mapping_sources AccoilFixture.empty mapping traits "company"
           (Accoil.HStr "Acme Corp") H).
Defined.

(** X17 on the instance: [company] is filled from the mapping. *)
Lemma merge_mapping_fills_witness :
  let mapping := Accoil.user_traits_mapping AccoilFixture.inputs in
  let traits : list (string * AccoilFixture.Val) :=
    [("email", Accoil.HStr "test@example.com")] in
  NoDup (map fst mapping) /\
  Accoil.hog_lookup "company" (Accoil.merge_mapping AccoilFixture.empty mapping traits)
    = Some (Accoil.HStr "Acme Corp").
Proof.
  intros mapping traits.
  assert (Hnd : NoDup (map fst mapping)).
  { apply (bool_decide_unpack _). by vm_compute. }
  assert (Hin : ("company", Accoil.HStr "Acme Corp") ∈ mapping) by by left.
  split; [exact Hnd|].
  exact (merge_mapping_fills AccoilFixture.empty mapping traits "company"
           (Accoil.HStr "Acme Corp") Hnd Hin eq_refl eq_refl eq_refl).
Defined.

(** X19 on the instance: the email of an identify call and the plan of a
    group call are the configured ones. *)
Lemma traits_manual_precedence_witness :
  Accoil.hog_lookup "email"
    (Accoil.user_traits AccoilFixture.toString AccoilFixture.empty
       AccoilFixture.inputs) = Some (Accoil.HStr "test@example.com") /\
  Accoil.hog_lookup "plan"
    (Accoil.group_traits AccoilFixture.toString AccoilFixture.toFloat
       AccoilFixture.empty AccoilFixture.inputs) = Some (Accoil.HStr "enterprise") /\
  Accoil.hog_lookup "mrr"
    (Accoil.group_traits AccoilFixture.toString AccoilFixture.toFloat
       AccoilFixture.empty AccoilFixture.inputs) = Some (Accoil.HFloat "500.0").
Proof.
  destruct (traits_manual_precedence AccoilFixture.toString AccoilFixture.toFloat
              AccoilFixture.empty AccoilFixture.inputs) as (Huser & Hgroup & Hmrr).
  split; [|split].
  - apply (Huser (Accoil.HStr "test@example.com") "email");
      [by left | reflexivity | reflexivity].
  - apply (Hgroup (Accoil.HStr "enterprise") "plan");
      [by do 3 right; left | reflexivity | reflexivity].
  - exact (Hmrr eq_refl eq_refl).
Defined.

(** X20 on the instance: the keys of the template's tests. *)
Lemma endpoint_staging_prefix_witness :
  Accoil.endpoint AccoilFixture.lower AccoilFixture.substring
    (AccoilFixture.inputs_for "STG_TEST_API_KEY_789") =
    "https://instaging.accoil.com/segment" /\
  Accoil.endpoint AccoilFixture.lower AccoilFixture.substring
    (AccoilFixture.inputs_for "test-api-key-123") =
    "https://in.accoil.com/segment".
Proof.
  split.
  - apply (endpoint_staging_prefix AccoilFixture.lower AccoilFixture.substring
             (AccoilFixture.inputs_for "STG_TEST_API_KEY_789")
             "STG_TEST_API_KEY_789" eq_refl eq_refl).
    by exists "test_api_key_789".
  - apply (endpoint_staging_prefix AccoilFixture.lower AccoilFixture.substring
             (AccoilFixture.inputs_for "test-api-key-123")
             "test-api-key-123" eq_refl eq_refl).
    intros [rest Hrest]. vm_compute in Hrest. discriminate.
Defined.

(** X21 on the instance: [create_inputs(event="button_click")]. *)
Lemma create_inputs_lookup_witness :
  let kwargs : AccoilTemplate.Dict := [("event", Accoil.HStr "button_click")] in
  NoDup (map fst kwargs) /\
  Accoil.hog_lookup "event" (AccoilTemplate.create_inputs kwargs) =
    Some (Accoil.HStr "button_click") /\
  Accoil.hog_lookup "userId" (AccoilTemplate.create_inputs kwargs) =
    Some (Accoil.HStr "user123") /\
  Forall (fun input =>
            is_Some (Accoil.hog_lookup (AccoilTemplate.key input)
                       (AccoilTemplate.create_inputs kwargs)))
    AccoilTemplate.inputs_schema.
Proof.
  intros kwargs.
  assert (Hnd : NoDup (map fst kwargs)).
  { apply (bool_decide_unpack _). by vm_compute. }
  destruct (create_inputs_lookup kwargs Hnd) as [Hlookup Hschema].
  split; [exact Hnd|].
  split; [exact (Hlookup "event")|].
  split; [exact (Hlookup "userId")|].
  apply Forall_forall. exact Hschema.
Defined.
